(** * SPOT GPS Gen 2 controller (SPOT2_Controller.ino)

    A shallow embedding of the Arduino sketch: the three global variables of
    the sketch, the calls it makes into the Arduino core (recorded as a
    trace), the level sensed on the 3V feedback pin (an input of the model),
    and the procedures [setup], [loop], [EightSeconds], [action],
    [Spot_Turn_On], [Spot_Turn_Off], [Spot_Message_OK] and
    [Spot_Message_Custom]. *)

From Stdlib Require Import ZArith List Lia Bool Arith.
Import ListNotations.
Open Scope Z_scope.

(** ** Arduino core vocabulary *)

Inductive Level : Type := LOW | HIGH.
Inductive PinMode : Type := INPUT | OUTPUT.

Definition Level_eqb (a b : Level) : bool :=
  match a, b with
  | LOW, LOW | HIGH, HIGH => true
  | _, _ => false
  end.

Definition other (l : Level) : Level :=
  match l with LOW => HIGH | HIGH => LOW end.

(** MCU registers and bit names written by [loop]. *)
Inductive Register : Type := ADCSRA | MCUSR | WDTCSR | MCUCR.
Inductive RegBit : Type := WDCE | WDE | WDIE | WDP3 | WDP0 | BODS | BODSE.

(** The four procedures of the sketch that press a button of the SPOT. *)
Inductive Proc : Type := TurnOn | TurnOff | MessageOK | MessageCustom.

Definition Proc_eqb (a b : Proc) : bool :=
  match a, b with
  | TurnOn, TurnOn | TurnOff, TurnOff
  | MessageOK, MessageOK | MessageCustom, MessageCustom => true
  | _, _ => false
  end.

(** ** Constants of the sketch *)

Definition LED : Z := 13.
Definition SpotOnOffButton : Z := 9.
Definition SpotOn3VSense : Z := 12.
Definition SpotOkMsgButton : Z := 10.
Definition SpotCustomMsgButton : Z := 11.

Definition kSpotOffTime : Z := 60.
Definition kSpotOnTime : Z := 38.

(** [enum SpotGPSState_Type]: the enumerators in declaration order.  The
    variable itself is an integer and may hold any value. *)
Definition Power_Off : Z := 0.
Definition Power_On : Z := 1.
Definition Sending_Ok : Z := 2.
Definition Power_Off_2 : Z := 3.
Definition Power_On_2 : Z := 4.
Definition Sending_Custom : Z := 5.

(** [int] is 16 bits wide on the ATmega; [counter8s++] is taken with
    two's-complement wrap-around. *)
Definition wrap16 (z : Z) : Z := (z + 32768) mod 65536 - 32768.

(** ** Observable events

    One event per call into the Arduino core or the AVR library, per register
    assignment, and ([EvCall]) per entry into one of the four button
    procedures of the sketch. *)

Inductive Event : Type :=
| EvCall (f : Proc)
| EvPinMode (pin : Z) (md : PinMode)
| EvDigitalWrite (pin : Z) (v : Level)
| EvDigitalRead (pin : Z) (v : Level)
| EvDelay (ms : Z)
| EvWdtReset
| EvWdtDisable
| EvRegWrite (r : Register) (bits : list RegBit)
| EvSetSleepModePwrDown
| EvNoInterrupts
| EvSleepEnable
| EvInterrupts
| EvSleepCpu
| EvSleepDisable.

(** ** Machine state

    The globals [counter8s], [SpotGPSState], [q8SecondBlocks]; the number of
    samples of the feedback pin taken so far; the events so far, oldest
    first. *)

Record Machine : Type := mkMachine {
  counter8s : Z;
  SpotGPSState : Z;
  q8SecondBlocks : Z;
  reads : nat;
  trace : list Event
}.

Definition set_counter8s (v : Z) (m : Machine) : Machine :=
  mkMachine v (SpotGPSState m) (q8SecondBlocks m) (reads m) (trace m).
Definition set_SpotGPSState (v : Z) (m : Machine) : Machine :=
  mkMachine (counter8s m) v (q8SecondBlocks m) (reads m) (trace m).
Definition set_q8SecondBlocks (v : Z) (m : Machine) : Machine :=
  mkMachine (counter8s m) (SpotGPSState m) v (reads m) (trace m).

(** [extend evs r m]: [m] after [r] more samples and the events [evs]. *)
Definition extend (evs : list Event) (r : nat) (m : Machine) : Machine :=
  mkMachine (counter8s m) (SpotGPSState m) (q8SecondBlocks m)
            (reads m + r)%nat (trace m ++ evs).

(** Globals are zero-initialised before [setup] runs. *)
Definition boot : Machine := mkMachine 0 0 0 0%nat [].

(** ** A monad for procedures that may still be polling

    [Done a m]: the procedure returned [a] in machine [m].
    [Spinning m]: the poll budget ran out inside a [while] loop, [m] is the
    machine at that point. *)

Inductive outcome (A : Type) : Type :=
| Done (a : A) (m : Machine)
| Spinning (m : Machine).
Arguments Done {A} a m.
Arguments Spinning {A} m.

Definition M (A : Type) : Type := Machine -> outcome A.

Definition ret {A} (a : A) : M A := fun m => Done a m.

Definition bind {A B} (c : M A) (k : A -> M B) : M B :=
  fun m => match c m with
           | Done a m1 => k a m1
           | Spinning m1 => Spinning m1
           end.

Notation "x <- c ;; k" := (bind c (fun x => k))
  (at level 61, c at next level, right associativity).
Notation "c ;; k" := (bind c (fun _ => k))
  (at level 61, right associativity).

Definition emit (e : Event) : M unit := fun m => Done tt (extend [e] 0 m).
Definition get {A} (f : Machine -> A) : M A := fun m => Done (f m) m.
Definition modify (f : Machine -> Machine) : M unit := fun m => Done tt (f m).

Definition final {A} (o : outcome A) : Machine :=
  match o with Done _ m => m | Spinning m => m end.

Definition returned {A} (o : outcome A) : bool :=
  match o with Done _ _ => true | Spinning _ => false end.

Section Sketch.

(** Level of the 3V sense line at the n-th sample taken by the sketch. *)
Variable sense : nat -> Level.

Definition pinMode (pin : Z) (md : PinMode) : M unit := emit (EvPinMode pin md).
Definition digitalWrite (pin : Z) (v : Level) : M unit :=
  emit (EvDigitalWrite pin v).
Definition digitalRead (pin : Z) : M Level :=
  fun m => Done (sense (reads m))
                (extend [EvDigitalRead pin (sense (reads m))] 1 m).
Definition delay (ms : Z) : M unit := emit (EvDelay ms).
Definition wdt_reset : M unit := emit EvWdtReset.
Definition wdt_disable : M unit := emit EvWdtDisable.

(** [while (digitalRead(SpotOn3VSense) == lvl) { delay(100); wdt_reset(); }]
    with a budget of [fuel] evaluations of the condition. *)
Fixpoint poll_while (lvl : Level) (fuel : nat) : M unit :=
  match fuel with
  | O => fun m => Spinning m
  | S fuel' =>
      v <- digitalRead SpotOn3VSense ;;
      if Level_eqb v lvl
      then delay 100 ;; wdt_reset ;; poll_while lvl fuel'
      else ret tt
  end.

Definition Spot_Turn_On (fuel : nat) : M unit :=
  emit (EvCall TurnOn) ;;
  pinMode SpotOn3VSense INPUT ;;
  v <- digitalRead SpotOn3VSense ;;
  if Level_eqb v LOW then
    pinMode SpotOnOffButton OUTPUT ;;
    digitalWrite SpotOnOffButton LOW ;;
    pinMode LED OUTPUT ;;
    digitalWrite LED HIGH ;;
    pinMode SpotOn3VSense INPUT ;;
    poll_while LOW fuel ;;
    digitalWrite SpotOnOffButton HIGH ;;
    pinMode SpotOnOffButton INPUT ;;
    digitalWrite LED LOW ;;
    pinMode LED INPUT
  else ret tt.

Definition Spot_Turn_Off (fuel : nat) : M unit :=
  emit (EvCall TurnOff) ;;
  pinMode SpotOn3VSense INPUT ;;
  v <- digitalRead SpotOn3VSense ;;
  if Level_eqb v HIGH then
    pinMode SpotOnOffButton OUTPUT ;;
    digitalWrite SpotOnOffButton LOW ;;
    pinMode LED OUTPUT ;;
    digitalWrite LED HIGH ;;
    pinMode SpotOn3VSense INPUT ;;
    poll_while HIGH fuel ;;
    digitalWrite SpotOnOffButton HIGH ;;
    pinMode SpotOnOffButton INPUT ;;
    digitalWrite LED LOW ;;
    pinMode LED INPUT
  else ret tt.

Definition Spot_Message_OK : M unit :=
  emit (EvCall MessageOK) ;;
  pinMode SpotOkMsgButton OUTPUT ;;
  digitalWrite SpotOkMsgButton LOW ;;
  pinMode LED OUTPUT ;;
  digitalWrite LED HIGH ;;
  delay 4000 ;;
  digitalWrite SpotOkMsgButton HIGH ;;
  pinMode SpotOkMsgButton INPUT ;;
  digitalWrite LED LOW ;;
  pinMode LED INPUT.

Definition Spot_Message_Custom : M unit :=
  emit (EvCall MessageCustom) ;;
  pinMode SpotCustomMsgButton OUTPUT ;;
  digitalWrite SpotCustomMsgButton LOW ;;
  pinMode LED OUTPUT ;;
  digitalWrite LED HIGH ;;
  delay 4000 ;;
  digitalWrite SpotCustomMsgButton HIGH ;;
  pinMode SpotCustomMsgButton INPUT ;;
  digitalWrite LED LOW ;;
  pinMode LED INPUT.

(** [action]: the [switch] over [SpotGPSState], [default] last. *)
Definition action (fuel : nat) : M unit :=
  st <- get SpotGPSState ;;
  if st =? Power_Off then
    Spot_Turn_On fuel ;;
    modify (set_SpotGPSState Power_On) ;;
    modify (set_q8SecondBlocks 1)
  else if st =? Power_On then
    Spot_Message_OK ;;
    modify (set_SpotGPSState Sending_Ok) ;;
    modify (set_q8SecondBlocks kSpotOnTime)
  else if st =? Sending_Ok then
    Spot_Turn_Off fuel ;;
    modify (set_SpotGPSState Power_Off_2) ;;
    modify (set_q8SecondBlocks kSpotOffTime)
  else if st =? Power_Off_2 then
    Spot_Turn_On fuel ;;
    modify (set_SpotGPSState Power_On_2) ;;
    modify (set_q8SecondBlocks 1)
  else if st =? Power_On_2 then
    Spot_Message_Custom ;;
    modify (set_SpotGPSState Sending_Custom) ;;
    modify (set_q8SecondBlocks kSpotOnTime)
  else if st =? Sending_Custom then
    Spot_Turn_Off fuel ;;
    modify (set_SpotGPSState Power_Off) ;;
    modify (set_q8SecondBlocks kSpotOffTime)
  else
    Spot_Turn_Off fuel ;;
    modify (set_SpotGPSState Power_Off) ;;
    modify (set_q8SecondBlocks kSpotOffTime).

Definition EightSeconds (fuel : nat) : M unit :=
  modify (fun m => set_counter8s (wrap16 (counter8s m + 1)) m) ;;
  c <- get counter8s ;;
  q <- get q8SecondBlocks ;;
  if c >=? q then
    modify (set_counter8s 0) ;;
    action fuel
  else ret tt.

Definition setup : M unit :=
  modify (set_counter8s 0) ;;
  modify (set_SpotGPSState Power_Off) ;;
  modify (set_q8SecondBlocks 1).

(** [ISR(WDT_vect)] runs when the watchdog interrupt ends the sleep. *)
Definition ISR_WDT_vect : M unit := wdt_disable.

Definition sleep_cpu : M unit := emit EvSleepCpu ;; ISR_WDT_vect.

Definition loop (fuel : nat) : M unit :=
  EightSeconds fuel ;;
  emit (EvRegWrite ADCSRA []) ;;
  emit (EvRegWrite MCUSR []) ;;
  emit (EvRegWrite WDTCSR [WDCE; WDE]) ;;
  emit (EvRegWrite WDTCSR [WDIE; WDP3; WDP0]) ;;
  wdt_reset ;;
  emit EvSetSleepModePwrDown ;;
  emit EvNoInterrupts ;;
  emit EvSleepEnable ;;
  emit (EvRegWrite MCUCR [BODS; BODSE]) ;;
  emit (EvRegWrite MCUCR [BODS]) ;;
  emit EvInterrupts ;;
  sleep_cpu ;;
  emit EvSleepDisable.

(** [n] passes of [loop], i.e. [n] wake-ups. *)
Fixpoint loops (fuel : nat) (n : nat) : M unit :=
  match n with
  | O => ret tt
  | S n' => loop fuel ;; loops fuel n'
  end.

(** The Arduino runtime: [setup] once, then [loop] again and again. *)
Definition run (fuel : nat) (n : nat) : outcome unit :=
  (setup ;; loops fuel n) boot.

End Sketch.

(** ** Vocabulary for stating properties *)

(** The procedure named by a [Proc]. *)
Definition run_proc (sense : nat -> Level) (p : Proc) (fuel : nat) : M unit :=
  match p with
  | TurnOn => Spot_Turn_On sense fuel
  | TurnOff => Spot_Turn_Off sense fuel
  | MessageOK => Spot_Message_OK
  | MessageCustom => Spot_Message_Custom
  end.

(** Events added to the trace of [m] by a computation started in [m]. *)
Definition new_events {A} (m : Machine) (o : outcome A) : list Event :=
  skipn (length (trace m)) (trace (final o)).

(** Procedures entered, in order. *)
Fixpoint calls_of (tr : list Event) : list Proc :=
  match tr with
  | [] => []
  | EvCall p :: r => p :: calls_of r
  | _ :: r => calls_of r
  end.

(** Number of times the processor went to sleep. *)
Fixpoint sleeps (tr : list Event) : nat :=
  match tr with
  | [] => O
  | EvSleepCpu :: r => S (sleeps r)
  | _ :: r => sleeps r
  end.

(** Procedures entered, each with the number of the wake-up (tick) during
    which it was entered; the first pass of [loop] is tick [t]. *)
Fixpoint timeline_from (t : nat) (tr : list Event) : list (nat * Proc) :=
  match tr with
  | [] => []
  | EvCall p :: r => (t, p) :: timeline_from t r
  | EvSleepCpu :: r => timeline_from (S t) r
  | _ :: r => timeline_from t r
  end.

Definition timeline (tr : list Event) : list (nat * Proc) := timeline_from 1 tr.

(** [drives pin e]: the event configures or writes [pin]. *)
Definition drives (pin : Z) (e : Event) : bool :=
  match e with
  | EvPinMode p _ => p =? pin
  | EvDigitalWrite p _ => p =? pin
  | _ => false
  end.

(** Direction and output latch of a pin after a trace (a pin is an input
    with its latch low at reset). *)
Definition pin_mode (pin : Z) (tr : list Event) : PinMode :=
  fold_left (fun md e => match e with
                         | EvPinMode p md' => if p =? pin then md' else md
                         | _ => md
                         end) tr INPUT.

Definition pin_latch (pin : Z) (tr : list Event) : Level :=
  fold_left (fun v e => match e with
                        | EvDigitalWrite p v' => if p =? pin then v' else v
                        | _ => v
                        end) tr LOW.

(** A button of the SPOT is pressed while its line is driven low. *)
Definition pressed (pin : Z) (tr : list Event) : bool :=
  match pin_mode pin tr, pin_latch pin tr with
  | OUTPUT, LOW => true
  | _, _ => false
  end.

Definition button_of (p : Proc) : Z :=
  match p with
  | TurnOn | TurnOff => SpotOnOffButton
  | MessageOK => SpotOkMsgButton
  | MessageCustom => SpotCustomMsgButton
  end.

(** One pass of a feedback polling loop that found level [lvl]. *)
Definition one_poll (lvl : Level) : list Event :=
  [EvDigitalRead SpotOn3VSense lvl; EvDelay 100; EvWdtReset].

Fixpoint polls (lvl : Level) (k : nat) : list Event :=
  match k with
  | O => []
  | S k' => one_poll lvl ++ polls lvl k'
  end.

(** Events of a power procedure [p] that found the line at [from], up to the
    polling loop, and from the sample that ends the loop. *)
Definition press_prefix (p : Proc) (from : Level) : list Event :=
  [EvCall p; EvPinMode SpotOn3VSense INPUT; EvDigitalRead SpotOn3VSense from;
   EvPinMode SpotOnOffButton OUTPUT; EvDigitalWrite SpotOnOffButton LOW;
   EvPinMode LED OUTPUT; EvDigitalWrite LED HIGH;
   EvPinMode SpotOn3VSense INPUT].

Definition release_suffix (from : Level) : list Event :=
  [EvDigitalRead SpotOn3VSense (other from);
   EvDigitalWrite SpotOnOffButton HIGH; EvPinMode SpotOnOffButton INPUT;
   EvDigitalWrite LED LOW; EvPinMode LED INPUT].

Definition skip_events (p : Proc) (from : Level) : list Event :=
  [EvCall p; EvPinMode SpotOn3VSense INPUT;
   EvDigitalRead SpotOn3VSense (other from)].

(** Events of a message procedure on button [btn]. *)
Definition message_events (p : Proc) (btn : Z) : list Event :=
  [EvCall p; EvPinMode btn OUTPUT; EvDigitalWrite btn LOW;
   EvPinMode LED OUTPUT; EvDigitalWrite LED HIGH; EvDelay 4000;
   EvDigitalWrite btn HIGH; EvPinMode btn INPUT;
   EvDigitalWrite LED LOW; EvPinMode LED INPUT].

(** Events of [loop] after [EightSeconds] has returned. *)
Definition sleep_events : list Event :=
  [EvRegWrite ADCSRA []; EvRegWrite MCUSR []; EvRegWrite WDTCSR [WDCE; WDE];
   EvRegWrite WDTCSR [WDIE; WDP3; WDP0]; EvWdtReset; EvSetSleepModePwrDown;
   EvNoInterrupts; EvSleepEnable; EvRegWrite MCUCR [BODS; BODSE];
   EvRegWrite MCUCR [BODS]; EvInterrupts; EvSleepCpu; EvWdtDisable;
   EvSleepDisable].

(** The events that touch the indicator, and the pulse: configured as an
    output and switched on, later switched off and released. *)
Definition led_events (tr : list Event) : list Event := filter (drives LED) tr.

Definition led_pulse : list Event :=
  [EvPinMode LED OUTPUT; EvDigitalWrite LED HIGH;
   EvDigitalWrite LED LOW; EvPinMode LED INPUT].

(** [pulse_around btn evs]: the indicator goes on right after button [btn]
    is pressed and off right after it is released, and nothing in between
    touches the indicator or the button. *)
Definition pulse_around (btn : Z) (evs : list Event) : Prop :=
  exists pre mid,
    evs = pre ++ [EvPinMode btn OUTPUT; EvDigitalWrite btn LOW;
                  EvPinMode LED OUTPUT; EvDigitalWrite LED HIGH]
              ++ mid
              ++ [EvDigitalWrite btn HIGH; EvPinMode btn INPUT;
                  EvDigitalWrite LED LOW; EvPinMode LED INPUT]
    /\ existsb (drives LED) pre = false
    /\ existsb (drives btn) pre = false
    /\ existsb (drives LED) mid = false
    /\ existsb (drives btn) mid = false.

(** Longest time in milliseconds the watchdog went without [wdt_reset]
    during [tr], [acc] ms having passed since the last one. *)
Fixpoint longest_unfed (acc : Z) (tr : list Event) : Z :=
  match tr with
  | [] => acc
  | EvDelay ms :: r => Z.max (acc + ms) (longest_unfed (acc + ms) r)
  | EvWdtReset :: r => Z.max acc (longest_unfed 0 r)
  | _ :: r => longest_unfed acc r
  end.

Fixpoint count_delays (tr : list Event) : nat :=
  match tr with
  | [] => O
  | EvDelay _ :: r => S (count_delays r)
  | _ :: r => count_delays r
  end.

Fixpoint count_feeds (tr : list Event) : nat :=
  match tr with
  | [] => O
  | EvWdtReset :: r => S (count_feeds r)
  | _ :: r => count_feeds r
  end.

Section Feedback.

Variable sense : nat -> Level.

(** Index of the first of the [fuel] samples from sample [n] on that differs
    from [lvl]. *)
Fixpoint first_change (lvl : Level) (n fuel : nat) : option nat :=
  match fuel with
  | O => None
  | S fuel' =>
      if Level_eqb (sense n) lvl
      then option_map S (first_change lvl (S n) fuel')
      else Some O
  end.

(** What a polling loop on level [lvl] does with [fuel] samples. *)
Definition poll_outcome (lvl : Level) (fuel : nat) (m : Machine)
  : outcome unit :=
  match first_change lvl (reads m) fuel with
  | Some k =>
      Done tt (extend (polls lvl k ++ [EvDigitalRead SpotOn3VSense (other lvl)])
                      (S k) m)
  | None => Spinning (extend (polls lvl fuel) fuel m)
  end.

(** What a power procedure does: [from] is the level at which it presses. *)
Definition power_outcome (p : Proc) (from : Level) (fuel : nat) (m : Machine)
  : outcome unit :=
  if Level_eqb (sense (reads m)) from then
    match first_change from (S (reads m)) fuel with
    | Some k =>
        Done tt (extend (press_prefix p from ++ polls from k
                                             ++ release_suffix from)
                        (S (S k)) m)
    | None =>
        Spinning (extend (press_prefix p from ++ polls from fuel) (S fuel) m)
    end
  else Done tt (extend (skip_events p from) 1 m).

(** The device answers: after any sample, each level is seen again. *)
Definition responsive : Prop :=
  forall (n : nat) (lvl : Level), exists k, sense (n + k)%nat = lvl.

End Feedback.

(** A device that follows the power button after three polls: samples
    0,1,2 low, 3..6 high, 7 low, and so on with period 8. *)
Definition demo_sense (n : nat) : Level :=
  if ((3 <=? n mod 8) && (n mod 8 <=? 6))%nat then HIGH else LOW.

(** A device that never powers up, and one that is always powered. *)
Definition dead_sense (n : nat) : Level := LOW.
Definition live_sense (n : nat) : Level := HIGH.

(** ** The state machine on its own *)

(** The transition table of the specification, one row per defined state:
    current state, procedure, next state, new threshold. *)
Definition spec_table : list (Z * Proc * Z * Z) :=
  [ (Power_Off,      TurnOn,        Power_On,       1);
    (Power_On,       MessageOK,     Sending_Ok,     kSpotOnTime);
    (Sending_Ok,     TurnOff,       Power_Off_2,    kSpotOffTime);
    (Power_Off_2,    TurnOn,        Power_On_2,     1);
    (Power_On_2,     MessageCustom, Sending_Custom, kSpotOnTime);
    (Sending_Custom, TurnOff,       Power_Off,      kSpotOffTime) ].

Definition defined_states : list Z :=
  [Power_Off; Power_On; Sending_Ok; Power_Off_2; Power_On_2; Sending_Custom].

(** The case of the [switch] taken for a value of [SpotGPSState]. *)
Definition dispatch (st : Z) : Proc * Z * Z :=
  if st =? Power_Off then (TurnOn, Power_On, 1)
  else if st =? Power_On then (MessageOK, Sending_Ok, kSpotOnTime)
  else if st =? Sending_Ok then (TurnOff, Power_Off_2, kSpotOffTime)
  else if st =? Power_Off_2 then (TurnOn, Power_On_2, 1)
  else if st =? Power_On_2 then (MessageCustom, Sending_Custom, kSpotOnTime)
  else if st =? Sending_Custom then (TurnOff, Power_Off, kSpotOffTime)
  else (TurnOff, Power_Off, kSpotOffTime).

(** [performs sense fuel m p nx th]: one call of [action] in [m] is the one
    procedure [p] followed by the two assignments; it enters [p] and no
    other procedure; when it returns the state is [nx] and the threshold
    [th]. *)
Definition performs (sense : nat -> Level) (fuel : nat) (m : Machine)
           (p : Proc) (nx th : Z) : Prop :=
  action sense fuel m
  = (run_proc sense p fuel ;;
     modify (set_SpotGPSState nx) ;;
     modify (set_q8SecondBlocks th)) m
  /\ calls_of (new_events m (action sense fuel m)) = [p]
  /\ (forall m1, run_proc sense p fuel m = Done tt m1 ->
        action sense fuel m
        = Done tt (set_q8SecondBlocks th (set_SpotGPSState nx m1)))
  /\ (forall m', action sense fuel m = Done tt m' ->
        SpotGPSState m' = nx /\ q8SecondBlocks m' = th
        /\ counter8s m' = counter8s m).

(** The three globals, and one wake-up seen on them alone: the new globals
    and the procedure entered, if any. *)
Definition ctl : Type := (Z * Z * Z)%type.

Definition ctl_of (m : Machine) : ctl :=
  (counter8s m, SpotGPSState m, q8SecondBlocks m).

Definition tick_ctl (g : ctl) : ctl * option Proc :=
  let '(c, st, q) := g in
  let c' := wrap16 (c + 1) in
  if c' >=? q then
    let '(p, nx, th) := dispatch st in ((0, nx, th), Some p)
  else ((c', st, q), None).

Definition cold : ctl := (0, Power_Off, 1).

Definition ctl_after (n : nat) : ctl := Nat.iter n (fun g => fst (tick_ctl g)) cold.

Definition stamp (t : nat) (f : option Proc) : list (nat * Proc) :=
  match f with Some p => [(t, p)] | None => [] end.

Fixpoint ctl_timeline (t : nat) (n : nat) (g : ctl) : list (nat * Proc) :=
  match n with
  | O => []
  | S n' => stamp t (snd (tick_ctl g)) ++ ctl_timeline (S t) n' (fst (tick_ctl g))
  end.

(** The schedule of the sketch in closed form: the procedure entered at
    tick [t], counted from 1. *)
Definition schedule (t : nat) : option Proc :=
  let r := ((t - 1) mod 198)%nat in
  if (r =? 0)%nat then Some TurnOn
  else if (r =? 1)%nat then Some MessageOK
  else if (r =? 39)%nat then Some TurnOff
  else if (r =? 99)%nat then Some TurnOn
  else if (r =? 100)%nat then Some MessageCustom
  else if (r =? 138)%nat then Some TurnOff
  else None.

(** The schedule as the specification's scenario gives it. *)
Definition spec_schedule (t : nat) : option Proc :=
  let r := ((t - 1) mod 198)%nat in
  if (r =? 0)%nat then Some TurnOn
  else if (r =? 38)%nat then Some MessageOK
  else if (r =? 98)%nat then Some TurnOff
  else if (r =? 99)%nat then Some TurnOn
  else if (r =? 137)%nat then Some MessageCustom
  else if (r =? 197)%nat then Some TurnOff
  else None.

Definition listing (sched : nat -> option Proc) (t n : nat) : list (nat * Proc) :=
  flat_map (fun u => stamp u (sched u)) (seq t n).

Definition full_cycle : list Proc :=
  [TurnOn; MessageOK; TurnOff; TurnOn; MessageCustom; TurnOff].

(** "After [n] ticks from cold start the machine is back in [Power_Off] and
    has entered exactly the procedures of one full cycle, in order." *)
Definition back_after (n : nat) : Prop :=
  forall sense fuel m',
    run sense fuel n = Done tt m' ->
    SpotGPSState m' = Power_Off /\ calls_of (trace m') = full_cycle.

(** The invariant of the state variables. *)
Definition valid (m : Machine) : Prop :=
  In (SpotGPSState m) defined_states
  /\ In (q8SecondBlocks m) [1; kSpotOnTime; kSpotOffTime].

(** "The procedures entered from cold start, tick by tick, are those of
    [sched]." *)
Definition follows (sched : nat -> option Proc) : Prop :=
  forall sense fuel n m',
    run sense fuel n = Done tt m' ->
    timeline (trace m') = listing sched 1 n.

(** [polls_until sense proc p from m]: started in [m] with the feedback line
    at [from], the power procedure [proc] returns exactly when the line
    leaves [from] at some later sample; when it returns it has pressed the
    power button, sampled the line every 100 ms while it read [from], and
    released the button; as long as it polls the button stays pressed; on a
    line that stays at [from] it never returns. *)
Definition polls_until (sense : nat -> Level) (proc : nat -> M unit)
           (p : Proc) (from : Level) (m : Machine) : Prop :=
  ((exists fuel m', proc fuel m = Done tt m')
   <-> (exists k, sense (S (reads m) + k)%nat = other from))
  /\ (forall fuel m', proc fuel m = Done tt m' ->
        exists k,
          (k < fuel)%nat
          /\ (forall j, (j < k)%nat -> sense (S (reads m) + j)%nat = from)
          /\ sense (S (reads m) + k)%nat = other from
          /\ m' = extend (press_prefix p from ++ polls from k
                                              ++ release_suffix from)
                         (S (S k)) m
          /\ pin_mode SpotOnOffButton (trace m') = INPUT
          /\ pressed SpotOnOffButton (trace m') = false)
  /\ (forall fuel m', proc fuel m = Spinning m' ->
        (forall j, (j < fuel)%nat -> sense (S (reads m) + j)%nat = from)
        /\ m' = extend (press_prefix p from ++ polls from fuel) (S fuel) m
        /\ pressed SpotOnOffButton (trace m') = true)
  /\ ((forall k, sense (S (reads m) + k)%nat = from) ->
      forall fuel, returned (proc fuel m) = false).

(** Whether procedure [p], started in [m], presses its button: the message
    procedures always do, the power procedures only when the feedback line
    shows the device in the other power state. *)
Definition presses (sense : nat -> Level) (p : Proc) (m : Machine) : bool :=
  match p with
  | TurnOn => Level_eqb (sense (reads m)) LOW
  | TurnOff => Level_eqb (sense (reads m)) HIGH
  | MessageOK | MessageCustom => true
  end.

(** "Every call of each of the four procedures pulses the indicator." *)
Definition always_pulses : Prop :=
  forall sense p fuel m m',
    run_proc sense p fuel m = Done tt m' ->
    led_events (new_events m (run_proc sense p fuel m)) = led_pulse.


(** ** Vocabulary for whole runs *)

(** The level of the feedback line at which a power procedure presses the
    button: [Spot_Turn_On] when it reads low, [Spot_Turn_Off] when high. *)
Definition from_of (p : Proc) : Level :=
  match p with TurnOff => HIGH | _ => LOW end.

Definition is_message (p : Proc) : bool :=
  match p with MessageOK | MessageCustom => true | _ => false end.

(** The events of a call of [p] that returned. *)
Definition proc_done (p : Proc) (evs : list Event) : Prop :=
  if is_message p
  then evs = message_events p (button_of p)
  else evs = skip_events p (from_of p)
       \/ exists k, evs = press_prefix p (from_of p) ++ polls (from_of p) k
                            ++ release_suffix (from_of p).

(** The events of [EightSeconds] in a tick that came to its end: nothing,
    or one procedure that returned. *)
Definition tick_done (b : list Event) : Prop :=
  b = [] \/ exists p, proc_done p b.

(** The trace of a sequence of ticks, each followed by the way to sleep. *)
Definition asleep (blocks : list (list Event)) : list Event :=
  concat (map (fun b => b ++ sleep_events) blocks).

(** The latest sample of the feedback line. *)
Fixpoint last_read_from (l : option Level) (tr : list Event) : option Level :=
  match tr with
  | [] => l
  | EvDigitalRead _ v :: r => last_read_from (Some v) r
  | _ :: r => last_read_from l r
  end.

Definition last_read (tr : list Event) : option Level := last_read_from None tr.

(** What the latest sample must be in each state of the machine. *)
Definition agrees (st : Z) (l : option Level) : Prop :=
  (st = Power_Off -> l = None \/ l = Some LOW)
  /\ (st = Power_Off_2 -> l = Some LOW)
  /\ (st = Power_On \/ st = Sending_Ok \/ st = Power_On_2 \/ st = Sending_Custom ->
      l = Some HIGH).

(** [powered_at_messages l tr]: at every entry into a message procedure in
    [tr] the latest sample read high ([l] is the latest sample before [tr]). *)
Fixpoint powered_at_messages (l : option Level) (tr : list Event) : bool :=
  match tr with
  | [] => true
  | EvDigitalRead _ v :: r => powered_at_messages (Some v) r
  | EvCall p :: r =>
      (if is_message p
       then match l with Some HIGH => true | _ => false end
       else true) && powered_at_messages l r
  | _ :: r => powered_at_messages l r
  end.

(** What holds between two passes of [loop] in a run from cold start. *)
Definition settled (m : Machine) : Prop :=
  In (SpotGPSState m) defined_states
  /\ agrees (SpotGPSState m) (last_read (trace m))
  /\ powered_at_messages None (trace m) = true.

(** Milliseconds of [delay] spent in [tr] while [pin] was driven low, the
    pin starting with direction [md] and latch [v]. *)
Fixpoint held_ms_from (pin : Z) (md : PinMode) (v : Level) (tr : list Event) : Z :=
  match tr with
  | [] => 0
  | EvPinMode p md' :: r => held_ms_from pin (if p =? pin then md' else md) v r
  | EvDigitalWrite p v' :: r => held_ms_from pin md (if p =? pin then v' else v) r
  | EvDelay ms :: r =>
      (match md, v with OUTPUT, LOW => ms | _, _ => 0 end)
      + held_ms_from pin md v r
  | _ :: r => held_ms_from pin md v r
  end.

(** The three button lines, those configured as outputs after a trace, and
    those pressed after a trace. *)
Definition buttons : list Z :=
  [SpotOnOffButton; SpotOkMsgButton; SpotCustomMsgButton].

Definition output_buttons (tr : list Event) : list Z :=
  filter (fun pin => match pin_mode pin tr with OUTPUT => true | INPUT => false end)
         buttons.

Definition pressed_buttons (tr : list Event) : list Z :=
  filter (fun pin => pressed pin tr) buttons.

(** Directions of the three button lines, followed event by event. *)
Definition mode_step (pin : Z) (md : PinMode) (e : Event) : PinMode :=
  match e with
  | EvPinMode p md' => if p =? pin then md' else md
  | _ => md
  end.

Definition step3 (s : PinMode * PinMode * PinMode) (e : Event)
  : PinMode * PinMode * PinMode :=
  let '(a, b, c) := s in
  (mode_step SpotOnOffButton a e, mode_step SpotOkMsgButton b e,
   mode_step SpotCustomMsgButton c e).

Definition outputs3 (s : PinMode * PinMode * PinMode) : nat :=
  let '(a, b, c) := s in
  length (filter (fun md => match md with OUTPUT => true | INPUT => false end)
                 [a; b; c]).

(** [scan3 s tr]: from directions [s], at no point of [tr] are two button
    lines outputs. *)
Fixpoint scan3 (s : PinMode * PinMode * PinMode) (tr : list Event) : bool :=
  (outputs3 s <=? 1)%nat
  && match tr with
     | [] => true
     | e :: r => scan3 (step3 s e) r
     end.

Definition all_inputs : PinMode * PinMode * PinMode := (INPUT, INPUT, INPUT).




(** ** Polling, pass by pass *)

(** [polled sense lvl fuel start ret k]: a polling loop on level [lvl] that
    starts at sample [start] with a budget of [fuel] evaluations of its
    condition has made exactly [k] passes: the first [k] samples read
    [lvl]; if the loop has ended ([ret]) the next sample read the other
    level and the budget was not used up, and if it is still running the
    whole budget went into passes. *)
Definition polled (sense : nat -> Level) (lvl : Level) (fuel start : nat)
           (ret : bool) (k : nat) : Prop :=
  (forall j, (j < k)%nat -> sense (start + j)%nat = lvl)
  /\ (if ret
      then (k < fuel)%nat /\ sense (start + k)%nat = other lvl
      else k = fuel).
(** * Properties *)

(** ** Machines and traces *)

Lemma extend_nil (m : Machine) : extend [] 0 m = m.
Proof.
  destruct m as [c st q r tr]; unfold extend; simpl.
  now rewrite Nat.add_0_r, app_nil_r.
Qed.

Lemma extend_extend (e1 e2 : list Event) (r1 r2 : nat) (m : Machine) :
  extend e2 r2 (extend e1 r1 m) = extend (e1 ++ e2) (r1 + r2) m.
Proof.
  unfold extend; simpl. now rewrite Nat.add_assoc, app_assoc.
Qed.

Lemma new_events_extend {A} (m m1 : Machine) (o : outcome A) (evs : list Event) :
  trace (final o) = trace m ++ evs -> new_events m o = evs.
Proof.
  unfold new_events; intros ->.
  rewrite skipn_app, skipn_all, Nat.sub_diag. reflexivity.
Qed.

Lemma new_events_Done {A} (a : A) (m : Machine) (evs : list Event) (r : nat) :
  new_events m (Done a (extend evs r m)) = evs.
Proof. now apply (new_events_extend m m). Qed.

Lemma new_events_Spinning (m : Machine) (evs : list Event) (r : nat) :
  new_events m (@Spinning unit (extend evs r m)) = evs.
Proof. now apply (new_events_extend m m). Qed.

Lemma calls_of_app (a b : list Event) :
  calls_of (a ++ b) = calls_of a ++ calls_of b.
Proof.
  induction a as [|e a IH]; simpl; [reflexivity|].
  destruct e; simpl; now rewrite IH.
Qed.

Lemma sleeps_app (a b : list Event) : sleeps (a ++ b) = (sleeps a + sleeps b)%nat.
Proof.
  induction a as [|e a IH]; simpl; [reflexivity|].
  destruct e; simpl; now rewrite IH.
Qed.

Lemma timeline_from_app (a b : list Event) :
  forall t, timeline_from t (a ++ b)
            = timeline_from t a ++ timeline_from (t + sleeps a) b.
Proof.
  induction a as [|e a IH]; intro t; simpl.
  - now rewrite Nat.add_0_r.
  - destruct e; simpl; rewrite ?IH; try reflexivity.
    now rewrite Nat.add_succ_r.
Qed.

Lemma calls_of_polls (lvl : Level) (k : nat) : calls_of (polls lvl k) = [].
Proof. induction k; simpl; auto. Qed.

Lemma sleeps_polls (lvl : Level) (k : nat) : sleeps (polls lvl k) = O.
Proof. induction k; simpl; auto. Qed.

Lemma drives_polls (pin : Z) (lvl : Level) (k : nat) :
  existsb (drives pin) (polls lvl k) = false.
Proof. induction k; simpl; auto. Qed.

Lemma filter_drives_polls (pin : Z) (lvl : Level) (k : nat) :
  filter (drives pin) (polls lvl k) = [].
Proof. induction k; simpl; auto. Qed.

Lemma fold_mode_polls (pin : Z) (lvl : Level) (k : nat) (md : PinMode) :
  fold_left (fun md e => match e with
                         | EvPinMode p md' => if p =? pin then md' else md
                         | _ => md
                         end) (polls lvl k) md = md.
Proof. induction k; simpl; auto. Qed.

Lemma fold_latch_polls (pin : Z) (lvl : Level) (k : nat) (v : Level) :
  fold_left (fun v e => match e with
                        | EvDigitalWrite p v' => if p =? pin then v' else v
                        | _ => v
                        end) (polls lvl k) v = v.
Proof. induction k; simpl; auto. Qed.

Lemma Level_eqb_eq (a b : Level) : Level_eqb a b = true <-> a = b.
Proof. destruct a, b; simpl; split; congruence. Qed.

Lemma Level_eqb_neq (a b : Level) : Level_eqb a b = false <-> a = other b.
Proof. destruct a, b; simpl; split; congruence. Qed.

(** ** The first sample that differs *)

Section FirstChange.

Variable sense : nat -> Level.

Lemma first_change_Some (lvl : Level) :
  forall fuel n k,
    first_change sense lvl n fuel = Some k ->
    (k < fuel)%nat /\ sense (n + k)%nat = other lvl
    /\ forall j, (j < k)%nat -> sense (n + j)%nat = lvl.
Proof.
  induction fuel as [|fuel IH]; intros n k H; simpl in H; [discriminate|].
  destruct (Level_eqb (sense n) lvl) eqn:E.
  - destruct (first_change sense lvl (S n) fuel) as [k'|] eqn:F; [|discriminate].
    injection H as <-. destruct (IH _ _ F) as (Hk & Hs & Hj).
    split; [lia|]. split.
    + now rewrite Nat.add_succ_r.
    + intros [|j] Hlt.
      * rewrite Nat.add_0_r. now apply Level_eqb_eq.
      * rewrite Nat.add_succ_r. apply Hj. lia.
  - injection H as <-. split; [lia|]. split.
    + rewrite Nat.add_0_r. now apply Level_eqb_neq.
    + intros j Hj; lia.
Qed.

Lemma first_change_None (lvl : Level) :
  forall fuel n,
    first_change sense lvl n fuel = None <->
    forall j, (j < fuel)%nat -> sense (n + j)%nat = lvl.
Proof.
  induction fuel as [|fuel IH]; intro n; simpl.
  - split; [intros _ j Hj; lia | reflexivity].
  - destruct (Level_eqb (sense n) lvl) eqn:E.
    + destruct (first_change sense lvl (S n) fuel) as [k'|] eqn:F; simpl.
      * split; [discriminate|]. intro H. exfalso.
        assert (G : first_change sense lvl (S n) fuel = None).
        { apply IH. intros j Hj. specialize (H (S j)).
          rewrite Nat.add_succ_r in H. apply H. lia. }
        congruence.
      * split; [|reflexivity]. intros _ [|j] Hj.
        -- rewrite Nat.add_0_r. now apply Level_eqb_eq.
        -- rewrite Nat.add_succ_r. apply (proj1 (IH (S n)) F). lia.
    + split; [discriminate|]. intro H. exfalso.
      specialize (H O). rewrite Nat.add_0_r in H.
      apply Level_eqb_neq in E. rewrite H in E; [|lia]. destruct lvl; discriminate.
Qed.

Lemma first_change_mono (lvl : Level) :
  forall fuel n k fuel',
    first_change sense lvl n fuel = Some k -> (fuel <= fuel')%nat ->
    first_change sense lvl n fuel' = Some k.
Proof.
  induction fuel as [|fuel IH]; intros n k fuel' H Hle; simpl in H; [discriminate|].
  destruct fuel' as [|fuel']; [lia|]. simpl.
  destruct (Level_eqb (sense n) lvl); [|assumption].
  destruct (first_change sense lvl (S n) fuel) as [k'|] eqn:F; [|discriminate].
  rewrite (IH _ _ fuel' F); [assumption | lia].
Qed.

Lemma first_change_found (lvl : Level) :
  forall k n, sense (n + k)%nat = other lvl ->
              exists j, first_change sense lvl n (S k) = Some j.
Proof.
  induction k as [|k IH]; intros n H; simpl.
  - rewrite Nat.add_0_r in H. rewrite H.
    destruct lvl; simpl; eexists; reflexivity.
  - destruct (Level_eqb (sense n) lvl); [|eexists; reflexivity].
    rewrite Nat.add_succ_r in H. destruct (IH (S n) H) as [j Hj].
    simpl in Hj. rewrite Hj. eexists; reflexivity.
Qed.

Lemma responsive_first_change (lvl : Level) (n : nat) :
  responsive sense -> exists fuel k, first_change sense lvl n fuel = Some k.
Proof.
  intro R. destruct (R n (other lvl)) as [k Hk].
  destruct (first_change_found lvl k n Hk) as [j Hj]. eauto.
Qed.

(** ** The procedures, as trace extensions *)

Lemma poll_while_outcome (lvl : Level) :
  forall fuel m, poll_while sense lvl fuel m = poll_outcome sense lvl fuel m.
Proof.
  induction fuel as [|fuel IH]; intro m; unfold poll_outcome.
  - simpl. now rewrite extend_nil.
  - cbn [poll_while first_change].
    unfold bind at 1, digitalRead at 1.
    destruct (Level_eqb (sense (reads m)) lvl) eqn:E.
    + unfold delay, wdt_reset, emit, bind. rewrite IH. unfold poll_outcome.
      rewrite !extend_extend. cbn [reads extend].
      apply Level_eqb_eq in E. rewrite E.
      match goal with
      | |- context [first_change sense lvl ?n fuel] =>
          replace n with (S (reads m)) by lia
      end.
      destruct (first_change sense lvl (S (reads m)) fuel) as [k|]; cbn [option_map];
        rewrite ?extend_extend; f_equal; f_equal; try lia;
        simpl; rewrite <- ?app_assoc; reflexivity.
    + unfold ret. apply Level_eqb_neq in E. rewrite E. reflexivity.
Qed.

Lemma Spot_Turn_On_outcome (fuel : nat) (m : Machine) :
  Spot_Turn_On sense fuel m = power_outcome sense TurnOn LOW fuel m.
Proof.
  unfold Spot_Turn_On, power_outcome, pinMode, digitalWrite, digitalRead,
    emit, bind, ret.
  cbn [reads extend].
  replace (reads m + 0 + 0)%nat with (reads m) by lia.
  destruct (Level_eqb (sense (reads m)) LOW) eqn:E.
  - rewrite poll_while_outcome. unfold poll_outcome.
    rewrite !extend_extend. cbn [reads extend].
    apply Level_eqb_eq in E. rewrite E.
    match goal with
    | |- context [first_change sense LOW ?n fuel] =>
        replace n with (S (reads m)) by lia
    end.
    destruct (first_change sense LOW (S (reads m)) fuel) as [k|];
      rewrite ?extend_extend; f_equal; f_equal; try lia;
      simpl; rewrite <- ?app_assoc; reflexivity.
  - apply Level_eqb_neq in E. rewrite E.
    rewrite !extend_extend. reflexivity.
Qed.

Lemma Spot_Turn_Off_outcome (fuel : nat) (m : Machine) :
  Spot_Turn_Off sense fuel m = power_outcome sense TurnOff HIGH fuel m.
Proof.
  unfold Spot_Turn_Off, power_outcome, pinMode, digitalWrite, digitalRead,
    emit, bind, ret.
  cbn [reads extend].
  replace (reads m + 0 + 0)%nat with (reads m) by lia.
  destruct (Level_eqb (sense (reads m)) HIGH) eqn:E.
  - rewrite poll_while_outcome. unfold poll_outcome.
    rewrite !extend_extend. cbn [reads extend].
    apply Level_eqb_eq in E. rewrite E.
    match goal with
    | |- context [first_change sense HIGH ?n fuel] =>
        replace n with (S (reads m)) by lia
    end.
    destruct (first_change sense HIGH (S (reads m)) fuel) as [k|];
      rewrite ?extend_extend; f_equal; f_equal; try lia;
      simpl; rewrite <- ?app_assoc; reflexivity.
  - apply Level_eqb_neq in E. rewrite E.
    rewrite !extend_extend. reflexivity.
Qed.

Lemma Spot_Message_OK_outcome (m : Machine) :
  Spot_Message_OK m = Done tt (extend (message_events MessageOK SpotOkMsgButton) 0 m).
Proof.
  unfold Spot_Message_OK, pinMode, digitalWrite, delay, emit, bind.
  rewrite !extend_extend. reflexivity.
Qed.

Lemma Spot_Message_Custom_outcome (m : Machine) :
  Spot_Message_Custom m
  = Done tt (extend (message_events MessageCustom SpotCustomMsgButton) 0 m).
Proof.
  unfold Spot_Message_Custom, pinMode, digitalWrite, delay, emit, bind.
  rewrite !extend_extend. reflexivity.
Qed.

End FirstChange.

(** ** One call of a procedure, one call of [action] *)

Lemma run_proc_shape (sense : nat -> Level) (p : Proc) (fuel : nat) (m : Machine) :
  exists evs r,
    (run_proc sense p fuel m = Done tt (extend evs r m)
     \/ run_proc sense p fuel m = Spinning (extend evs r m))
    /\ calls_of evs = [p] /\ sleeps evs = O.
Proof.
  destruct p; cbn [run_proc].
  - rewrite Spot_Turn_On_outcome. unfold power_outcome.
    destruct (Level_eqb (sense (reads m)) LOW).
    + destruct (first_change sense LOW (S (reads m)) fuel) as [k|];
        do 2 eexists; (split; [eauto|]);
        rewrite !calls_of_app, !sleeps_app, calls_of_polls, sleeps_polls; auto.
    + do 2 eexists; split; [eauto|]; auto.
  - rewrite Spot_Turn_Off_outcome. unfold power_outcome.
    destruct (Level_eqb (sense (reads m)) HIGH).
    + destruct (first_change sense HIGH (S (reads m)) fuel) as [k|];
        do 2 eexists; (split; [eauto|]);
        rewrite !calls_of_app, !sleeps_app, calls_of_polls, sleeps_polls; auto.
    + do 2 eexists; split; [eauto|]; auto.
  - rewrite Spot_Message_OK_outcome. do 2 eexists; split; [eauto|]; auto.
  - rewrite Spot_Message_Custom_outcome. do 2 eexists; split; [eauto|]; auto.
Qed.

Lemma action_dispatch (sense : nat -> Level) (fuel : nat) (m : Machine) :
  forall p nx th,
    dispatch (SpotGPSState m) = (p, nx, th) ->
    action sense fuel m
    = (run_proc sense p fuel ;;
       modify (set_SpotGPSState nx) ;;
       modify (set_q8SecondBlocks th)) m.
Proof.
  intros p nx th. unfold dispatch, action.
  unfold bind at 1, get at 1.
  repeat match goal with
         | |- context [if ?b then _ else _] => destruct b
         end;
    intro H; injection H as <- <- <-; reflexivity.
Qed.

Lemma action_shape (sense : nat -> Level) (fuel : nat) (m : Machine) :
  forall p nx th,
    dispatch (SpotGPSState m) = (p, nx, th) ->
    exists evs r,
      (action sense fuel m
       = Done tt (set_q8SecondBlocks th (set_SpotGPSState nx (extend evs r m)))
       \/ action sense fuel m = Spinning (extend evs r m))
      /\ calls_of evs = [p] /\ sleeps evs = O.
Proof.
  intros p nx th D. rewrite (action_dispatch _ _ _ _ _ _ D).
  destruct (run_proc_shape sense p fuel m) as (evs & r & [H|H] & Hc & Hs);
    exists evs, r; unfold bind, modify; rewrite H; auto.
Qed.

Lemma dispatch_performs (sense : nat -> Level) (fuel : nat) (m : Machine) :
  forall p nx th,
    dispatch (SpotGPSState m) = (p, nx, th) -> performs sense fuel m p nx th.
Proof.
  intros p nx th D. unfold performs.
  pose proof (action_dispatch sense fuel m _ _ _ D) as E.
  split; [exact E|].
  destruct (action_shape sense fuel m _ _ _ D) as (evs & r & H & Hc & Hs).
  split; [|split].
  - rewrite (new_events_extend m m _ evs); [assumption|].
    destruct H as [H|H]; rewrite H; reflexivity.
  - intros m1 H1. rewrite E. unfold bind, modify. rewrite H1. reflexivity.
  - intros m' H'. destruct H as [H|H]; rewrite H in H'; [|discriminate].
    injection H' as <-. auto.
Qed.

Lemma dispatch_table (st : Z) (p : Proc) (nx th : Z) :
  In (st, p, nx, th) spec_table -> dispatch st = (p, nx, th).
Proof.
  unfold spec_table. simpl.
  intros [H|[H|[H|[H|[H|[H|[]]]]]]]; injection H as <- <- <- <-; reflexivity.
Qed.

Lemma dispatch_default (st : Z) :
  ~ In st defined_states -> dispatch st = (TurnOff, Power_Off, kSpotOffTime).
Proof.
  unfold defined_states, dispatch, Power_Off, Power_On, Sending_Ok,
    Power_Off_2, Power_On_2, Sending_Custom. simpl. intro H.
  repeat match goal with
         | |- context [?a =? ?b] =>
             destruct (Z.eqb_spec a b); [exfalso; apply H; subst; tauto|]
         end.
  reflexivity.
Qed.

Lemma dispatch_valid (st : Z) :
  In (snd (fst (dispatch st))) defined_states
  /\ In (snd (dispatch st)) [1; kSpotOnTime; kSpotOffTime].
Proof.
  unfold dispatch.
  repeat match goal with
         | |- context [if ?b then _ else _] => destruct b
         end; simpl; tauto.
Qed.

(** ** One tick *)

Lemma EightSeconds_unfold (sense : nat -> Level) (fuel : nat) (m : Machine) :
  EightSeconds sense fuel m
  = if wrap16 (counter8s m + 1) >=? q8SecondBlocks m
    then action sense fuel (set_counter8s 0 m)
    else Done tt (set_counter8s (wrap16 (counter8s m + 1)) m).
Proof.
  unfold EightSeconds, bind, modify, get, ret. cbn [counter8s q8SecondBlocks set_counter8s].
  destruct (wrap16 (counter8s m + 1) >=? q8SecondBlocks m); reflexivity.
Qed.

Lemma loop_unfold (sense : nat -> Level) (fuel : nat) (m : Machine) :
  loop sense fuel m
  = match EightSeconds sense fuel m with
    | Done _ m1 => Done tt (extend sleep_events 0 m1)
    | Spinning m1 => Spinning m1
    end.
Proof.
  unfold loop. unfold bind at 1.
  destruct (EightSeconds sense fuel m) as [[] m1|m1]; [|reflexivity].
  unfold sleep_cpu, ISR_WDT_vect, wdt_disable, wdt_reset, emit, bind.
  rewrite !extend_extend. reflexivity.
Qed.

(** One pass of [loop] against one step on the globals alone. *)
Lemma loop_ctl (sense : nat -> Level) (fuel : nat) (m m' : Machine) :
  loop sense fuel m = Done tt m' ->
  ctl_of m' = fst (tick_ctl (ctl_of m))
  /\ exists evs,
      trace m' = trace m ++ evs
      /\ calls_of evs = match snd (tick_ctl (ctl_of m)) with
                        | Some p => [p] | None => [] end
      /\ (forall t, timeline_from t evs = stamp t (snd (tick_ctl (ctl_of m))))
      /\ sleeps evs = 1%nat.
Proof.
  rewrite loop_unfold, EightSeconds_unfold. unfold tick_ctl, ctl_of.
  destruct (wrap16 (counter8s m + 1) >=? q8SecondBlocks m).
  - destruct (dispatch (SpotGPSState m)) as [[p nx] th] eqn:D.
    destruct (action_shape sense fuel (set_counter8s 0 m) p nx th D)
      as (evs & r & [H|H] & Hc & Hs); rewrite H; [|discriminate].
    intro E; injection E as <-. split; [reflexivity|].
    exists (evs ++ sleep_events). cbn [trace extend set_q8SecondBlocks
      set_SpotGPSState set_counter8s snd fst].
    split; [now rewrite app_assoc|].
    split; [rewrite calls_of_app, Hc; reflexivity|].
    split; [|rewrite sleeps_app, Hs; reflexivity].
    intro t. rewrite timeline_from_app, Hs.
    assert (T : forall l u, sleeps l = O -> timeline_from u l
                                          = map (fun p => (u, p)) (calls_of l)).
    { induction l as [|e l IHl]; intros u Hl; [reflexivity|].
      destruct e; simpl in *; try discriminate; rewrite ?IHl; auto. }
    rewrite (T evs t Hs), Hc. reflexivity.
  - intro E; injection E as <-. split; [reflexivity|].
    exists sleep_events. cbn [trace extend set_counter8s snd fst].
    repeat split; reflexivity.
Qed.

Lemma ctl_timeline_procs (n : nat) :
  forall a b g, map snd (ctl_timeline a n g) = map snd (ctl_timeline b n g).
Proof.
  induction n as [|n IHn]; intros a b g; [reflexivity|].
  cbn [ctl_timeline]. rewrite !map_app. f_equal; [|apply IHn].
  destruct (snd (tick_ctl g)); reflexivity.
Qed.

Lemma loops_ctl (sense : nat -> Level) (fuel : nat) :
  forall n m m',
    loops sense fuel n m = Done tt m' ->
    ctl_of m' = Nat.iter n (fun g => fst (tick_ctl g)) (ctl_of m)
    /\ exists evs,
        trace m' = trace m ++ evs
        /\ (forall t, timeline_from t evs = ctl_timeline t n (ctl_of m))
        /\ calls_of evs = map snd (ctl_timeline 0 n (ctl_of m))
        /\ sleeps evs = n.
Proof.
  induction n as [|n IH]; intros m m' H.
  - injection H as <-. split; [reflexivity|]. exists [].
    rewrite app_nil_r. repeat split; reflexivity.
  - cbn [loops] in H. unfold bind in H.
    destruct (loop sense fuel m) as [[] m1|m1] eqn:L; [|discriminate].
    destruct (loop_ctl _ _ _ _ L) as (G1 & e1 & T1 & C1 & S1 & Z1).
    destruct (IH _ _ H) as (G2 & e2 & T2 & S2 & C2 & Z2).
    split.
    + rewrite G2, G1. rewrite Nat.iter_succ_r. reflexivity.
    + exists (e1 ++ e2). split; [rewrite T2, T1; now rewrite app_assoc|].
      split; [|split].
      * intro t. rewrite timeline_from_app, S1, S2, Z1, G1.
        cbn [ctl_timeline]. now rewrite Nat.add_1_r.
      * rewrite calls_of_app, C1, C2, G1. cbn [ctl_timeline].
        rewrite map_app. f_equal.
        -- destruct (snd (tick_ctl (ctl_of m))); reflexivity.
        -- apply ctl_timeline_procs.
      * rewrite sleeps_app, Z1, Z2. reflexivity.
Qed.

Lemma setup_boot : setup boot = Done tt (mkMachine 0 Power_Off 1 0 []).
Proof. reflexivity. Qed.

Lemma run_ctl (sense : nat -> Level) (fuel n : nat) (m' : Machine) :
  run sense fuel n = Done tt m' ->
  ctl_of m' = ctl_after n
  /\ timeline (trace m') = ctl_timeline 1 n cold
  /\ calls_of (trace m') = map snd (ctl_timeline 1 n cold).
Proof.
  unfold run. unfold bind at 1. rewrite setup_boot. intro H.
  destruct (loops_ctl _ _ _ _ _ H) as (G & evs & T & S & C & _).
  cbn [trace app] in T. split; [exact G|]. rewrite T. split.
  - apply S.
  - rewrite C. apply ctl_timeline_procs.
Qed.

(** ** A device that answers lets every procedure return *)

Section Responsive.

Variable sense : nat -> Level.
Hypothesis answers : responsive sense.

Lemma power_outcome_returns (p : Proc) (from : Level) (m : Machine) :
  exists fuel0 m', forall fuel, (fuel0 <= fuel)%nat ->
    power_outcome sense p from fuel m = Done tt m'.
Proof.
  unfold power_outcome.
  destruct (Level_eqb (sense (reads m)) from).
  - destruct (responsive_first_change sense from (S (reads m)) answers)
      as (fuel0 & k & F).
    exists fuel0. eexists. intros fuel Hle.
    rewrite (first_change_mono sense from _ _ _ fuel F Hle). reflexivity.
  - exists O. eexists. intros; reflexivity.
Qed.

Lemma run_proc_returns (p : Proc) (m : Machine) :
  exists fuel0 m', forall fuel, (fuel0 <= fuel)%nat ->
    run_proc sense p fuel m = Done tt m'.
Proof.
  destruct p; cbn [run_proc].
  - destruct (power_outcome_returns TurnOn LOW m) as (f & m' & H).
    exists f, m'. intros. rewrite Spot_Turn_On_outcome. auto.
  - destruct (power_outcome_returns TurnOff HIGH m) as (f & m' & H).
    exists f, m'. intros. rewrite Spot_Turn_Off_outcome. auto.
  - exists O. eexists. intros. apply Spot_Message_OK_outcome.
  - exists O. eexists. intros. apply Spot_Message_Custom_outcome.
Qed.

Lemma action_returns (m : Machine) :
  exists fuel0 m', forall fuel, (fuel0 <= fuel)%nat ->
    action sense fuel m = Done tt m'.
Proof.
  destruct (dispatch (SpotGPSState m)) as [[p nx] th] eqn:D.
  destruct (run_proc_returns p m) as (f & m1 & H).
  exists f. eexists. intros fuel Hle.
  rewrite (action_dispatch _ _ _ _ _ _ D). unfold bind, modify.
  rewrite (H fuel Hle). reflexivity.
Qed.

Lemma loop_returns (m : Machine) :
  exists fuel0 m', forall fuel, (fuel0 <= fuel)%nat ->
    loop sense fuel m = Done tt m'.
Proof.
  destruct (wrap16 (counter8s m + 1) >=? q8SecondBlocks m) eqn:E.
  - destruct (action_returns (set_counter8s 0 m)) as (f & m1 & H).
    exists f. eexists. intros fuel Hle.
    rewrite loop_unfold, EightSeconds_unfold, E, (H fuel Hle). reflexivity.
  - exists O. eexists. intros fuel _.
    rewrite loop_unfold, EightSeconds_unfold, E. reflexivity.
Qed.

Lemma loops_returns (n : nat) :
  forall m, exists fuel0 m', forall fuel, (fuel0 <= fuel)%nat ->
    loops sense fuel n m = Done tt m'.
Proof.
  induction n as [|n IH]; intro m.
  - exists O, m. reflexivity.
  - destruct (loop_returns m) as (f1 & m1 & H1).
    destruct (IH m1) as (f2 & m2 & H2).
    exists (Nat.max f1 f2), m2. intros fuel Hle.
    cbn [loops]. unfold bind. rewrite H1 by lia. apply H2. lia.
Qed.

Lemma run_returns (n : nat) :
  exists fuel0 m', forall fuel, (fuel0 <= fuel)%nat ->
    run sense fuel n = Done tt m'.
Proof.
  destruct (loops_returns n (mkMachine 0 Power_Off 1 0 [])) as (f & m' & H).
  exists f, m'. intros fuel Hle. unfold run. unfold bind at 1.
  rewrite setup_boot. auto.
Qed.

End Responsive.

Lemma demo_sense_responsive : responsive demo_sense.
Proof.
  intros n lvl.
  assert (P : forall a, demo_sense (a + 8) = demo_sense a).
  { intro a. unfold demo_sense.
    replace ((a + 8) mod 8)%nat with (a mod 8)%nat; [reflexivity|].
    replace (a + 8)%nat with (a + 1 * 8)%nat by lia.
    now rewrite Nat.Div0.mod_add. }
  assert (Q : forall q r, demo_sense (r + q * 8) = demo_sense r).
  { induction q as [|q IH]; intro r.
    - now rewrite Nat.add_0_r.
    - replace (r + S q * 8)%nat with ((r + q * 8) + 8)%nat by lia.
      now rewrite P, IH. }
  pose proof (Nat.div_mod_eq n 8) as D.
  pose proof (Nat.mod_upper_bound n 8 ltac:(lia)) as B.
  set (r := (n mod 8)%nat) in *. set (q := (n / 8)%nat) in *.
  destruct lvl.
  - exists (8 - r + 8)%nat.
    replace (n + (8 - r + 8))%nat with (0 + (q + 2) * 8)%nat by lia.
    now rewrite Q.
  - exists (8 - r + 3)%nat.
    replace (n + (8 - r + 3))%nat with (3 + (q + 1) * 8)%nat by lia.
    now rewrite Q.
Qed.

(** ** The schedule in closed form *)

Lemma ctl_after_S (n : nat) : ctl_after (S n) = fst (tick_ctl (ctl_after n)).
Proof. reflexivity. Qed.

Lemma ctl_after_add (a b : nat) :
  ctl_after (a + b) = Nat.iter a (fun g => fst (tick_ctl g)) (ctl_after b).
Proof. unfold ctl_after. now rewrite Nat.iter_add. Qed.

Lemma ctl_period_1 : ctl_after 199 = ctl_after 1.
Proof. vm_compute. reflexivity. Qed.

Lemma ctl_period (q r : nat) : ctl_after (1 + r + q * 198) = ctl_after (1 + r).
Proof.
  induction q as [|q IH].
  - f_equal; lia.
  - replace (1 + r + S q * 198)%nat with ((r + q * 198) + 199)%nat by lia.
    rewrite ctl_after_add, ctl_period_1, <- ctl_after_add.
    replace (r + q * 198 + 1)%nat with (1 + r + q * 198)%nat by lia.
    exact IH.
Qed.

Lemma fired_first_period :
  forallb (fun u => match snd (tick_ctl (ctl_after u)), schedule (S u) with
                    | Some p, Some p' => Proc_eqb p p'
                    | None, None => true
                    | _, _ => false
                    end) (seq 0 199) = true.
Proof. vm_compute. reflexivity. Qed.

Lemma Proc_eqb_eq (a b : Proc) : Proc_eqb a b = true -> a = b.
Proof. destruct a, b; simpl; congruence. Qed.

Lemma schedule_period (t : nat) : (1 <= t)%nat -> schedule (t + 198) = schedule t.
Proof.
  intro H. unfold schedule.
  replace (t + 198 - 1)%nat with ((t - 1) + 1 * 198)%nat by lia.
  now rewrite Nat.Div0.mod_add.
Qed.

Lemma fired_schedule (u : nat) : snd (tick_ctl (ctl_after u)) = schedule (S u).
Proof.
  assert (Base : forall v, (v < 199)%nat ->
                           snd (tick_ctl (ctl_after v)) = schedule (S v)).
  { intros v Hv. pose proof fired_first_period as F.
    rewrite forallb_forall in F. specialize (F v).
    assert (I : In v (seq 0 199)) by (apply in_seq; lia).
    specialize (F I).
    destruct (snd (tick_ctl (ctl_after v))), (schedule (S v));
      try discriminate; [|reflexivity].
    now rewrite (Proc_eqb_eq _ _ F). }
  destruct (Nat.lt_ge_cases u 199) as [Hlt|Hge]; [now apply Base|].
  pose proof (Nat.div_mod_eq (u - 1) 198) as D.
  pose proof (Nat.mod_upper_bound (u - 1) 198 ltac:(lia)) as B.
  set (r := ((u - 1) mod 198)%nat) in *. set (q := ((u - 1) / 198)%nat) in *.
  replace u with (1 + r + q * 198)%nat at 1 by lia.
  rewrite ctl_period, Base by lia.
  unfold schedule.
  replace (S u - 1)%nat with ((1 + r) + q * 198)%nat by lia.
  replace (S (1 + r) - 1)%nat with (1 + r)%nat by lia.
  rewrite Nat.Div0.mod_add. reflexivity.
Qed.

Lemma ctl_timeline_listing (n : nat) :
  forall u, ctl_timeline (S u) n (ctl_after u) = listing schedule (S u) n.
Proof.
  induction n as [|n IH]; intro u; [reflexivity|].
  cbn [ctl_timeline]. unfold listing. cbn [seq flat_map].
  rewrite fired_schedule. f_equal.
  rewrite <- ctl_after_S. apply IH.
Qed.

(** * The state machine *)

(** C1. For each of the six defined values of [SpotGPSState], one call of
    [action] runs exactly the one procedure of the table row of that state
    (it enters that procedure and no other), and on return the state is the
    row's successor and [q8SecondBlocks] the row's threshold. *)
Theorem action_follows_table :
  forall (sense : nat -> Level) (fuel : nat) (m : Machine)
         (st : Z) (p : Proc) (nx th : Z),
    In (st, p, nx, th) spec_table ->
    SpotGPSState m = st ->
    performs sense fuel m p nx th
    /\ map (fun row => fst (fst (fst row))) spec_table = defined_states.
Proof.
  intros sense fuel m st p nx th Hrow Hst. split; [|reflexivity].
  apply dispatch_performs. rewrite Hst. now apply dispatch_table.
Qed.

Lemma action_follows_table_witness :
  In (Sending_Ok, TurnOff, Power_Off_2, kSpotOffTime) spec_table
  /\ SpotGPSState (mkMachine 0 Sending_Ok kSpotOnTime 4 []) = Sending_Ok
  /\ performs demo_sense 5 (mkMachine 0 Sending_Ok kSpotOnTime 4 [])
              TurnOff Power_Off_2 kSpotOffTime.
Proof.
  split; [simpl; tauto|]. split; [reflexivity|].
  apply (action_follows_table demo_sense 5 (mkMachine 0 Sending_Ok kSpotOnTime 4 [])
           Sending_Ok TurnOff Power_Off_2 kSpotOffTime).
  - simpl; tauto.
  - reflexivity.
Defined.

(** C6. For every value of [SpotGPSState] outside the six defined ones, one
    call of [action] runs [Spot_Turn_Off] (and nothing else), and on return
    the state is [Power_Off] and the threshold [kSpotOffTime]; with a
    device that answers, the call returns. *)
Theorem unrecognized_state_recovers :
  forall (sense : nat -> Level) (fuel : nat) (m : Machine),
    ~ In (SpotGPSState m) defined_states ->
    performs sense fuel m TurnOff Power_Off kSpotOffTime
    /\ (responsive sense ->
        exists fuel0 m', forall fuel', (fuel0 <= fuel')%nat ->
          action sense fuel' m = Done tt m'
          /\ SpotGPSState m' = Power_Off
          /\ q8SecondBlocks m' = kSpotOffTime).
Proof.
  intros sense fuel m Hout.
  pose proof (dispatch_default _ Hout) as D. split.
  - now apply dispatch_performs.
  - intro R. destruct (action_returns sense R m) as (f & m' & H).
    exists f, m'. intros fuel' Hle. split; [auto|].
    destruct (dispatch_performs sense fuel' m _ _ _ D) as (_ & _ & _ & P).
    destruct (P m' (H fuel' Hle)) as (? & ? & _). auto.
Qed.

Lemma unrecognized_state_recovers_witness :
  ~ In (SpotGPSState (mkMachine 7 77 0 4 [])) defined_states
  /\ performs demo_sense 5 (mkMachine 7 77 0 4 []) TurnOff Power_Off kSpotOffTime.
Proof.
  assert (H : ~ In (SpotGPSState (mkMachine 7 77 0 4 [])) defined_states).
  { unfold defined_states. simpl. intros [E|[E|[E|[E|[E|[E|[]]]]]]]; discriminate. }
  split; [exact H|].
  exact (proj1 (unrecognized_state_recovers demo_sense 5 (mkMachine 7 77 0 4 []) H)).
Defined.

(** C10. After [setup], and after every call of [action] that returns,
    whatever the value of [SpotGPSState] before the call, [SpotGPSState] is
    one of the six enumerators and [q8SecondBlocks] is one of 1,
    [kSpotOnTime], [kSpotOffTime], hence at least 1; with a device that
    answers, every call of [action] returns. *)
Theorem state_invariant :
  (forall m, exists m', setup m = Done tt m' /\ valid m'
                        /\ 1 <= q8SecondBlocks m')
  /\ (forall sense fuel m m',
        action sense fuel m = Done tt m' ->
        valid m' /\ 1 <= q8SecondBlocks m')
  /\ (forall sense m, responsive sense ->
        exists fuel m', action sense fuel m = Done tt m').
Proof.
  split; [|split].
  - intro m. eexists. split; [reflexivity|]. unfold valid. simpl.
    split; [tauto|lia].
  - intros sense fuel m m' H.
    destruct (dispatch (SpotGPSState m)) as [[p nx] th] eqn:D.
    destruct (dispatch_performs sense fuel m _ _ _ D) as (_ & _ & _ & P).
    destruct (P m' H) as (Hs & Hq & _).
    pose proof (dispatch_valid (SpotGPSState m)) as V. rewrite D in V.
    cbn [fst snd] in V. destruct V as [V1 V2].
    unfold valid. rewrite Hs, Hq. split; [tauto|].
    unfold kSpotOnTime, kSpotOffTime in V2. simpl in V2.
    destruct V2 as [<-|[<-|[<-|[]]]]; lia.
  - intros sense m R. destruct (action_returns sense R m) as (f & m' & H).
    exists f, m'. apply H. lia.
Qed.

Lemma state_invariant_witness :
  action demo_sense 5 (mkMachine 300 (-9) 0 4 [])
  = Done tt (final (action demo_sense 5 (mkMachine 300 (-9) 0 4 [])))
  /\ valid (final (action demo_sense 5 (mkMachine 300 (-9) 0 4 [])))
  /\ 1 <= q8SecondBlocks (final (action demo_sense 5 (mkMachine 300 (-9) 0 4 []))).
Proof.
  assert (H : action demo_sense 5 (mkMachine 300 (-9) 0 4 [])
              = Done tt (final (action demo_sense 5 (mkMachine 300 (-9) 0 4 []))))
    by (vm_compute; reflexivity).
  split; [exact H|].
  exact (proj1 (proj2 state_invariant) demo_sense 5%nat _ _ H).
Defined.

(** * The tick accumulator *)

Lemma wrap16_small (z : Z) : -32768 <= z < 32768 -> wrap16 z = z.
Proof. intro H. unfold wrap16. rewrite Z.mod_small; lia. Qed.

Lemma ctl_after_bounds (n : nat) :
  let '(c, st, q) := ctl_after n in
  0 <= c < q /\ In q [1; kSpotOnTime; kSpotOffTime].
Proof.
  induction n as [|n IH].
  - simpl. split; [lia|tauto].
  - rewrite ctl_after_S. destruct (ctl_after n) as [[c st] q].
    destruct IH as [Hc Hq]. unfold tick_ctl.
    assert (Hq' : 1 <= q <= 60).
    { unfold kSpotOnTime, kSpotOffTime in Hq. simpl in Hq.
      destruct Hq as [<-|[<-|[<-|[]]]]; lia. }
    rewrite wrap16_small by lia.
    destruct (Z.geb_spec (c + 1) q) as [G|G].
    + pose proof (dispatch_valid st) as V.
      destruct (dispatch st) as [[p nx] th]. cbn [fst snd] in *.
      destruct V as [_ V]. split; [|exact V].
      unfold kSpotOnTime, kSpotOffTime in V. simpl in V.
      destruct V as [<-|[<-|[<-|[]]]]; lia.
    + cbn [fst]. split; [lia|exact Hq].
Qed.

(** C4. [EightSeconds] adds one to [counter8s]; when the new value is below
    [q8SecondBlocks] it does nothing else; when it has reached
    [q8SecondBlocks] it sets [counter8s] to zero and calls [action] once,
    which enters exactly one procedure however far the counter is above the
    threshold, and on return [counter8s] is 0; in a run from cold start
    [counter8s] is below [q8SecondBlocks] after every tick, so the value
    compared at the next tick never exceeds the threshold. *)
Theorem tick_accumulator :
  forall (sense : nat -> Level) (fuel : nat) (m : Machine),
    (-32768 <= counter8s m < 32767 ->
     wrap16 (counter8s m + 1) = counter8s m + 1)
    /\ (wrap16 (counter8s m + 1) < q8SecondBlocks m ->
        EightSeconds sense fuel m
        = Done tt (set_counter8s (wrap16 (counter8s m + 1)) m))
    /\ (q8SecondBlocks m <= wrap16 (counter8s m + 1) ->
        EightSeconds sense fuel m = action sense fuel (set_counter8s 0 m)
        /\ length (calls_of (new_events m (EightSeconds sense fuel m))) = 1%nat
        /\ forall m', EightSeconds sense fuel m = Done tt m' -> counter8s m' = 0)
    /\ (forall n m', run sense fuel n = Done tt m' ->
        0 <= counter8s m' < q8SecondBlocks m'
        /\ wrap16 (counter8s m' + 1) = counter8s m' + 1
        /\ counter8s m' + 1 <= q8SecondBlocks m').
Proof.
  intros sense fuel m. split; [|split; [|split]].
  - intro H. apply wrap16_small. lia.
  - intro H. rewrite EightSeconds_unfold.
    destruct (Z.geb_spec (wrap16 (counter8s m + 1)) (q8SecondBlocks m)); [lia|].
    reflexivity.
  - intro H. assert (E : EightSeconds sense fuel m
                         = action sense fuel (set_counter8s 0 m)).
    { rewrite EightSeconds_unfold.
      destruct (Z.geb_spec (wrap16 (counter8s m + 1)) (q8SecondBlocks m)); [|lia].
      reflexivity. }
    split; [exact E|]. rewrite E.
    destruct (dispatch (SpotGPSState (set_counter8s 0 m))) as [[p nx] th] eqn:D.
    destruct (dispatch_performs sense fuel _ _ _ _ D) as (_ & C & _ & P).
    split.
    + change (new_events m (action sense fuel (set_counter8s 0 m)))
        with (new_events (set_counter8s 0 m) (action sense fuel (set_counter8s 0 m))).
      rewrite C. reflexivity.
    + intros m' H'. destruct (P m' H') as (_ & _ & ->). reflexivity.
  - intros n m' H. destruct (run_ctl _ _ _ _ H) as (G & _).
    pose proof (ctl_after_bounds n) as B. rewrite <- G in B.
    unfold ctl_of in B. destruct B as [B Q].
    assert (Hq' : 1 <= q8SecondBlocks m' <= 60).
    { unfold kSpotOnTime, kSpotOffTime in Q. simpl in Q.
      destruct Q as [<-|[<-|[<-|[]]]]; lia. }
    split; [exact B|]. split; [apply wrap16_small|]; lia.
Qed.

Lemma tick_accumulator_witness :
  q8SecondBlocks (mkMachine 1000 Power_On 1 0 []) <=
    wrap16 (counter8s (mkMachine 1000 Power_On 1 0 []) + 1)
  /\ EightSeconds demo_sense 5 (mkMachine 1000 Power_On 1 0 [])
     = action demo_sense 5 (set_counter8s 0 (mkMachine 1000 Power_On 1 0 []))
  /\ length (calls_of (new_events (mkMachine 1000 Power_On 1 0 [])
                         (EightSeconds demo_sense 5 (mkMachine 1000 Power_On 1 0 []))))
     = 1%nat.
Proof.
  assert (H : q8SecondBlocks (mkMachine 1000 Power_On 1 0 []) <=
              wrap16 (counter8s (mkMachine 1000 Power_On 1 0 []) + 1))
    by (vm_compute; discriminate).
  split; [exact H|].
  pose proof (proj1 (proj2 (proj2
    (tick_accumulator demo_sense 5 (mkMachine 1000 Power_On 1 0 [])))) H) as T.
  split; [exact (proj1 T) | exact (proj1 (proj2 T))].
Defined.

(** * The power procedures *)

(** C5. [Spot_Turn_On] called while the feedback line reads high only
    configures and samples the feedback pin and returns: it touches no other
    pin, so the button is not pressed, and it changes no variable;
    [Spot_Turn_Off] called while the line reads low does the same. *)
Theorem power_procedures_idempotent :
  forall (sense : nat -> Level) (fuel : nat) (m : Machine),
    (sense (reads m) = HIGH ->
     Spot_Turn_On sense fuel m
     = Done tt (extend [EvCall TurnOn; EvPinMode SpotOn3VSense INPUT;
                        EvDigitalRead SpotOn3VSense HIGH] 1 m)
     /\ forall pin, pin <> SpotOn3VSense ->
          existsb (drives pin) (new_events m (Spot_Turn_On sense fuel m)) = false)
    /\ (sense (reads m) = LOW ->
        Spot_Turn_Off sense fuel m
        = Done tt (extend [EvCall TurnOff; EvPinMode SpotOn3VSense INPUT;
                           EvDigitalRead SpotOn3VSense LOW] 1 m)
        /\ forall pin, pin <> SpotOn3VSense ->
             existsb (drives pin) (new_events m (Spot_Turn_Off sense fuel m)) = false).
Proof.
  intros sense fuel m. split; intro H.
  - assert (E : Spot_Turn_On sense fuel m
                = Done tt (extend [EvCall TurnOn; EvPinMode SpotOn3VSense INPUT;
                                   EvDigitalRead SpotOn3VSense HIGH] 1 m)).
    { rewrite Spot_Turn_On_outcome. unfold power_outcome. rewrite H. reflexivity. }
    split; [exact E|]. intros pin Hpin. rewrite E.
    rewrite ?new_events_Done, ?new_events_Spinning.
    cbn [existsb drives].
    destruct (Z.eqb_spec SpotOn3VSense pin); [congruence|reflexivity].
  - assert (E : Spot_Turn_Off sense fuel m
                = Done tt (extend [EvCall TurnOff; EvPinMode SpotOn3VSense INPUT;
                                   EvDigitalRead SpotOn3VSense LOW] 1 m)).
    { rewrite Spot_Turn_Off_outcome. unfold power_outcome. rewrite H. reflexivity. }
    split; [exact E|]. intros pin Hpin. rewrite E.
    rewrite ?new_events_Done, ?new_events_Spinning.
    cbn [existsb drives].
    destruct (Z.eqb_spec SpotOn3VSense pin); [congruence|reflexivity].
Qed.

Lemma power_procedures_idempotent_witness :
  live_sense (reads boot) = HIGH
  /\ Spot_Turn_On live_sense 0 boot
     = Done tt (extend [EvCall TurnOn; EvPinMode SpotOn3VSense INPUT;
                        EvDigitalRead SpotOn3VSense HIGH] 1 boot).
Proof.
  split; [reflexivity|].
  exact (proj1 (proj1 (power_procedures_idempotent live_sense 0 boot) eq_refl)).
Defined.

Lemma pin_mode_released (tr : list Event) (p : Proc) (from : Level) (k : nat) :
  pin_mode SpotOnOffButton
           (tr ++ press_prefix p from ++ polls from k ++ release_suffix from)
  = INPUT.
Proof.
  unfold pin_mode. rewrite !fold_left_app, fold_mode_polls. reflexivity.
Qed.

Lemma pin_state_held (tr : list Event) (p : Proc) (from : Level) (k : nat) :
  pin_mode SpotOnOffButton (tr ++ press_prefix p from ++ polls from k) = OUTPUT
  /\ pin_latch SpotOnOffButton (tr ++ press_prefix p from ++ polls from k) = LOW.
Proof.
  unfold pin_mode, pin_latch.
  rewrite !fold_left_app, fold_mode_polls, fold_latch_polls.
  split; reflexivity.
Qed.

Lemma power_outcome_polls_until (sense : nat -> Level) (proc : nat -> M unit)
      (p : Proc) (from : Level) (m : Machine) :
  (forall fuel, proc fuel m = power_outcome sense p from fuel m) ->
  sense (reads m) = from ->
  polls_until sense proc p from m.
Proof.
  intros E H.
  assert (Ret : forall fuel m', proc fuel m = Done tt m' ->
            exists k, first_change sense from (S (reads m)) fuel = Some k
              /\ m' = extend (press_prefix p from ++ polls from k
                                                  ++ release_suffix from)
                             (S (S k)) m).
  { intros fuel m'. rewrite E. unfold power_outcome. rewrite H.
    replace (Level_eqb from from) with true by (destruct from; reflexivity).
    destruct (first_change sense from (S (reads m)) fuel) as [k|]; [|discriminate].
    intro D. injection D as <-. eauto. }
  assert (Spin : forall fuel m', proc fuel m = Spinning m' ->
            first_change sense from (S (reads m)) fuel = None
            /\ m' = extend (press_prefix p from ++ polls from fuel) (S fuel) m).
  { intros fuel m'. rewrite E. unfold power_outcome. rewrite H.
    replace (Level_eqb from from) with true by (destruct from; reflexivity).
    destruct (first_change sense from (S (reads m)) fuel) as [k|]; [discriminate|].
    intro D. injection D as <-. auto. }
  unfold polls_until. split; [|split; [|split]].
  - split.
    + intros (fuel & m' & D). destruct (Ret _ _ D) as (k & F & _).
      exists k. apply (first_change_Some sense from _ _ _ F).
    + intros (k & Hk). destruct (first_change_found sense from k _ Hk) as [j F].
      exists (S k). eexists. rewrite E. unfold power_outcome. rewrite H.
      replace (Level_eqb from from) with true by (destruct from; reflexivity).
      rewrite F. reflexivity.
  - intros fuel m' D. destruct (Ret _ _ D) as (k & F & ->).
    destruct (first_change_Some sense from _ _ _ F) as (Hlt & Hk & Hj).
    exists k. repeat (split; [assumption|]). split; [reflexivity|].
    cbn [trace extend]. unfold pressed.
    rewrite (pin_mode_released (trace m) p from k). split; reflexivity.
  - intros fuel m' D. destruct (Spin _ _ D) as (F & ->).
    split; [now apply first_change_None|].
    split; [reflexivity|]. cbn [trace extend]. unfold pressed.
    destruct (pin_state_held (trace m) p from fuel) as [-> ->]. reflexivity.
  - intros Never fuel.
    destruct (proc fuel m) as [[] m'|m'] eqn:D; [|reflexivity].
    destruct (Ret _ _ D) as (k & F & _).
    destruct (first_change_Some sense from _ _ _ F) as (_ & Hk & _).
    rewrite Never in Hk. destruct from; discriminate.
Qed.

(** C7. Called while the feedback line reads low, [Spot_Turn_On] presses the
    power button and samples the line every 100 ms; it returns if and only
    if some later sample reads high, there is no other way out of the loop;
    when it returns the button has been released.  The same holds for
    [Spot_Turn_Off] with the levels exchanged. *)
Theorem power_procedures_poll_until_feedback :
  forall (sense : nat -> Level) (m : Machine),
    (sense (reads m) = LOW ->
     polls_until sense (Spot_Turn_On sense) TurnOn LOW m)
    /\ (sense (reads m) = HIGH ->
        polls_until sense (Spot_Turn_Off sense) TurnOff HIGH m).
Proof.
  intros sense m. split; intro H.
  - apply power_outcome_polls_until; [|exact H].
    intro fuel. apply Spot_Turn_On_outcome.
  - apply power_outcome_polls_until; [|exact H].
    intro fuel. apply Spot_Turn_Off_outcome.
Qed.

Lemma power_procedures_poll_until_feedback_witness :
  demo_sense (reads boot) = LOW
  /\ polls_until demo_sense (Spot_Turn_On demo_sense) TurnOn LOW boot
  /\ dead_sense (reads boot) = LOW
  /\ forall fuel, returned (Spot_Turn_On dead_sense fuel boot) = false.
Proof.
  split; [reflexivity|].
  split; [exact (proj1 (power_procedures_poll_until_feedback demo_sense boot)
                       eq_refl)|].
  split; [reflexivity|].
  exact (proj2 (proj2 (proj2
           (proj1 (power_procedures_poll_until_feedback dead_sense boot) eq_refl)))
           (fun _ => eq_refl)).
Defined.

(** * The watchdog *)

Lemma count_feeds_app (a b : list Event) :
  count_feeds (a ++ b) = (count_feeds a + count_feeds b)%nat.
Proof.
  induction a as [|e a IH]; simpl; [reflexivity|].
  destruct e; simpl; now rewrite IH.
Qed.

Lemma count_delays_app (a b : list Event) :
  count_delays (a ++ b) = (count_delays a + count_delays b)%nat.
Proof.
  induction a as [|e a IH]; simpl; [reflexivity|].
  destruct e; simpl; now rewrite IH.
Qed.

Lemma count_polls (lvl : Level) (k : nat) :
  count_feeds (polls lvl k) = k /\ count_delays (polls lvl k) = k.
Proof. induction k as [|k [IH1 IH2]]; simpl; auto. Qed.

(** After a stretch of polling, however it ends, at most 100 ms have gone
    by without [wdt_reset]. *)
Lemma longest_unfed_polls (lvl : Level) (tail : list Event) :
  (forall acc, 0 <= acc <= 100 -> count_delays tail = O ->
               longest_unfed acc tail <= 100) ->
  count_delays tail = O ->
  forall k, longest_unfed 0 (polls lvl k ++ tail) <= 100.
Proof.
  intros T D k. induction k as [|k IH]; simpl.
  - apply T; [lia|exact D].
  - lia.
Qed.

Lemma longest_unfed_quiet (tail : list Event) :
  forall acc, 0 <= acc <= 100 -> count_delays tail = O ->
              count_feeds tail = O -> longest_unfed acc tail <= 100.
Proof.
  induction tail as [|e tail IH]; intros acc Ha Hd Hf; simpl; [lia|].
  destruct e; simpl in *; try discriminate; now apply IH.
Qed.

Lemma poll_while_fed (sense : nat -> Level) (lvl : Level) (fuel : nat)
      (m : Machine) :
  exists k,
    polled sense lvl fuel (reads m) (returned (poll_while sense lvl fuel m)) k
    /\ new_events m (poll_while sense lvl fuel m)
       = polls lvl k
         ++ (if returned (poll_while sense lvl fuel m)
             then [EvDigitalRead SpotOn3VSense (other lvl)] else [])
    /\ reads (final (poll_while sense lvl fuel m))
       = (reads m + k
          + (if returned (poll_while sense lvl fuel m) then 1 else 0))%nat.
Proof.
  rewrite poll_while_outcome. unfold poll_outcome, polled.
  destruct (first_change sense lvl (reads m) fuel) as [k|] eqn:F.
  - exists k. destruct (first_change_Some sense lvl _ _ _ F) as (Hk & Hs & Hj).
    cbn [returned final]. rewrite new_events_Done. cbn [reads extend].
    split; [auto|]. split; [reflexivity|lia].
  - exists fuel. cbn [returned final]. rewrite new_events_Spinning.
    cbn [reads extend]. split.
    + split; [now apply first_change_None|reflexivity].
    + split; [now rewrite app_nil_r|lia].
Qed.

Lemma power_outcome_fed (sense : nat -> Level) (p : Proc) (from : Level)
      (fuel : nat) (m : Machine) :
  count_feeds (new_events m (power_outcome sense p from fuel m))
  = count_delays (new_events m (power_outcome sense p from fuel m))
  /\ longest_unfed 0 (new_events m (power_outcome sense p from fuel m)) <= 100
  /\ if Level_eqb (sense (reads m)) from
     then exists k,
         polled sense from fuel (S (reads m))
                (returned (power_outcome sense p from fuel m)) k
         /\ new_events m (power_outcome sense p from fuel m)
            = press_prefix p from ++ polls from k
                ++ (if returned (power_outcome sense p from fuel m)
                    then release_suffix from else [])
         /\ count_feeds (new_events m (power_outcome sense p from fuel m)) = k
         /\ reads (final (power_outcome sense p from fuel m))
            = (reads m + 1 + k
               + (if returned (power_outcome sense p from fuel m)
                  then 1 else 0))%nat
     else new_events m (power_outcome sense p from fuel m) = skip_events p from
          /\ count_feeds (new_events m (power_outcome sense p from fuel m)) = O.
Proof.
  unfold power_outcome, polled.
  destruct (Level_eqb (sense (reads m)) from).
  - destruct (first_change sense from (S (reads m)) fuel) as [k|] eqn:F;
      cbn [returned final]; rewrite ?new_events_Done, ?new_events_Spinning;
      rewrite !count_feeds_app, !count_delays_app; cbn [reads extend].
    + destruct (count_polls from k) as [Cf Cd]. rewrite Cf, Cd.
      destruct (first_change_Some sense from _ _ _ F) as (Hk & Hs & Hj).
      split; [reflexivity|]. split.
      * cbn [press_prefix app longest_unfed].
        apply longest_unfed_polls; [|reflexivity].
        intros acc Ha _. apply longest_unfed_quiet; auto.
      * exists k. split; [auto|]. split; [reflexivity|].
        split; [simpl; lia|lia].
    + destruct (count_polls from fuel) as [Cf Cd]. rewrite Cf, Cd.
      split; [reflexivity|]. split.
      * cbn [press_prefix app longest_unfed].
        rewrite <- (app_nil_r (polls from fuel)).
        apply longest_unfed_polls; [|reflexivity].
        intros acc Ha _. simpl. lia.
      * exists fuel. split.
        -- split; [now apply first_change_None|reflexivity].
        -- split; [now rewrite app_nil_r|]. split; [simpl; lia|lia].
  - cbn [returned final]. rewrite new_events_Done.
    split; [reflexivity|]. split; [simpl; lia|]. split; reflexivity.
Qed.

(** C8. Every pass of the polling loop of [Spot_Turn_On] and of
    [Spot_Turn_Off] is a sample, [delay(100)] and [wdt_reset()].  Whether
    the loop has ended or is still running, it has made one pass for every
    sample that found the awaited level missing (all of its budget when it
    is still running), its events are exactly those passes (followed by the
    sample that ended it), and so it has reset the watchdog once per pass,
    as often as it has delayed; within either procedure the passes are the
    only delays, and no more than 100 ms ever go by without a reset. *)
Theorem polling_feeds_watchdog :
  forall (sense : nat -> Level) (fuel : nat) (m : Machine),
    (forall lvl,
        exists k,
          (k <= fuel)%nat
          /\ polled sense lvl fuel (reads m)
                    (returned (poll_while sense lvl fuel m)) k
          /\ new_events m (poll_while sense lvl fuel m)
             = polls lvl k
               ++ (if returned (poll_while sense lvl fuel m)
                   then [EvDigitalRead SpotOn3VSense (other lvl)] else [])
          /\ reads (final (poll_while sense lvl fuel m))
             = (reads m + k
                + (if returned (poll_while sense lvl fuel m) then 1 else 0))%nat
          /\ count_feeds (new_events m (poll_while sense lvl fuel m)) = k
          /\ count_delays (new_events m (poll_while sense lvl fuel m)) = k
          /\ longest_unfed 0 (new_events m (poll_while sense lvl fuel m)) <= 100)
    /\ (forall lvl k, polls lvl (S k)
                      = [EvDigitalRead SpotOn3VSense lvl; EvDelay 100; EvWdtReset]
                          ++ polls lvl k)
    /\ (count_feeds (new_events m (Spot_Turn_On sense fuel m))
        = count_delays (new_events m (Spot_Turn_On sense fuel m))
        /\ longest_unfed 0 (new_events m (Spot_Turn_On sense fuel m)) <= 100
        /\ if Level_eqb (sense (reads m)) LOW
           then exists k,
               polled sense LOW fuel (S (reads m))
                      (returned (Spot_Turn_On sense fuel m)) k
               /\ new_events m (Spot_Turn_On sense fuel m)
                  = press_prefix TurnOn LOW ++ polls LOW k
                      ++ (if returned (Spot_Turn_On sense fuel m)
                          then release_suffix LOW else [])
               /\ count_feeds (new_events m (Spot_Turn_On sense fuel m)) = k
               /\ reads (final (Spot_Turn_On sense fuel m))
                  = (reads m + 1 + k
                     + (if returned (Spot_Turn_On sense fuel m) then 1 else 0))%nat
           else new_events m (Spot_Turn_On sense fuel m) = skip_events TurnOn LOW
                /\ count_feeds (new_events m (Spot_Turn_On sense fuel m)) = O)
    /\ (count_feeds (new_events m (Spot_Turn_Off sense fuel m))
        = count_delays (new_events m (Spot_Turn_Off sense fuel m))
        /\ longest_unfed 0 (new_events m (Spot_Turn_Off sense fuel m)) <= 100
        /\ if Level_eqb (sense (reads m)) HIGH
           then exists k,
               polled sense HIGH fuel (S (reads m))
                      (returned (Spot_Turn_Off sense fuel m)) k
               /\ new_events m (Spot_Turn_Off sense fuel m)
                  = press_prefix TurnOff HIGH ++ polls HIGH k
                      ++ (if returned (Spot_Turn_Off sense fuel m)
                          then release_suffix HIGH else [])
               /\ count_feeds (new_events m (Spot_Turn_Off sense fuel m)) = k
               /\ reads (final (Spot_Turn_Off sense fuel m))
                  = (reads m + 1 + k
                     + (if returned (Spot_Turn_Off sense fuel m) then 1 else 0))%nat
           else new_events m (Spot_Turn_Off sense fuel m) = skip_events TurnOff HIGH
                /\ count_feeds (new_events m (Spot_Turn_Off sense fuel m)) = O).
Proof.
  intros sense fuel m. split; [|split; [|split]].
  - intro lvl. destruct (poll_while_fed sense lvl fuel m) as (k & P & E & R).
    exists k. split.
    { destruct P as [_ P]. destruct (returned _); [destruct P|]; lia. }
    split; [exact P|]. split; [exact E|]. split; [exact R|]. rewrite E.
    destruct (count_polls lvl k) as [Cf Cd].
    rewrite count_feeds_app, count_delays_app, Cf, Cd.
    split; [|split].
    + destruct (returned _); simpl; lia.
    + destruct (returned _); simpl; lia.
    + apply longest_unfed_polls.
      * intros acc Ha Hd. apply longest_unfed_quiet; auto.
        destruct (returned _); reflexivity.
      * destruct (returned _); reflexivity.
  - reflexivity.
  - rewrite Spot_Turn_On_outcome. apply power_outcome_fed.
  - rewrite Spot_Turn_Off_outcome. apply power_outcome_fed.
Qed.

Lemma polling_feeds_watchdog_witness :
  Level_eqb (demo_sense (reads boot)) LOW = true
  /\ exists k,
      polled demo_sense LOW 5 (S (reads boot))
             (returned (Spot_Turn_On demo_sense 5 boot)) k
      /\ count_feeds (new_events boot (Spot_Turn_On demo_sense 5 boot)) = k.
Proof.
  split; [reflexivity|].
  destruct (proj1 (proj2 (proj2 (polling_feeds_watchdog demo_sense 5 boot))))
    as (_ & _ & H).
  change (Level_eqb (demo_sense (reads boot)) LOW) with true in H.
  destruct H as (k & P & _ & C & _).
  exists k. split; [exact P|exact C].
Defined.

(** * The indicator *)

(** C9 as stated fails: [Spot_Turn_On] on
    a device that is already powered returns without touching the LED. *)
Lemma power_on_when_powered_no_pulse : ~ always_pulses.
Proof.
  intro H. specialize (H live_sense TurnOn 0%nat boot _ eq_refl).
  vm_compute in H. discriminate.
Qed.

Lemma pulse_around_power (p : Proc) (from : Level) (k : nat) :
  pulse_around SpotOnOffButton
               (press_prefix p from ++ polls from k ++ release_suffix from).
Proof.
  exists [EvCall p; EvPinMode SpotOn3VSense INPUT; EvDigitalRead SpotOn3VSense from].
  exists ([EvPinMode SpotOn3VSense INPUT] ++ polls from k
            ++ [EvDigitalRead SpotOn3VSense (other from)]).
  split; [|split; [|split; [|split]]]; try reflexivity.
  - cbn [press_prefix release_suffix app]. rewrite <- !app_assoc. reflexivity.
  - rewrite !existsb_app, drives_polls. reflexivity.
  - rewrite !existsb_app, drives_polls. reflexivity.
Qed.

Lemma pulse_around_message (p : Proc) (btn : Z) :
  btn <> LED -> pulse_around btn (message_events p btn).
Proof.
  intro H. exists [EvCall p], [EvDelay 4000].
  repeat split; reflexivity.
Qed.

Lemma led_events_power (p : Proc) (from : Level) (k : nat) :
  led_events (press_prefix p from ++ polls from k ++ release_suffix from)
  = led_pulse.
Proof.
  unfold led_events. rewrite !filter_app, filter_drives_polls. reflexivity.
Qed.

(** C9 (amended). A call of [Spot_Message_OK] or [Spot_Message_Custom], and
    a call of [Spot_Turn_On] or [Spot_Turn_Off] that returns after finding
    the device in the other power state, pulses the indicator once: the LED
    goes on right after the button is pressed and off right after it is
    released.  A call of [Spot_Turn_On] or [Spot_Turn_Off] that finds the
    device already in the requested state does not touch the LED. *)
Theorem indicator_pulse_when_pressed :
  forall (sense : nat -> Level) (p : Proc) (fuel : nat) (m m' : Machine),
    run_proc sense p fuel m = Done tt m' ->
    if presses sense p m
    then led_events (new_events m (run_proc sense p fuel m)) = led_pulse
         /\ pulse_around (button_of p) (new_events m (run_proc sense p fuel m))
    else led_events (new_events m (run_proc sense p fuel m)) = []
         /\ existsb (drives (button_of p))
                    (new_events m (run_proc sense p fuel m)) = false.
Proof.
  intros sense p fuel m m' H.
  assert (P : forall q from,
             power_outcome sense q from fuel m = Done tt m' ->
             let evs := new_events m (power_outcome sense q from fuel m) in
             if Level_eqb (sense (reads m)) from
             then led_events evs = led_pulse /\ pulse_around SpotOnOffButton evs
             else led_events evs = []
                  /\ existsb (drives SpotOnOffButton) evs = false).
  { intros q from. unfold power_outcome.
    destruct (Level_eqb (sense (reads m)) from).
    - destruct (first_change sense from (S (reads m)) fuel) as [k|];
        [|discriminate].
      intros _. cbv zeta. rewrite new_events_Done.
      split; [apply led_events_power | apply pulse_around_power].
    - intros _. cbv zeta. rewrite new_events_Done. split; reflexivity. }
  destruct p; cbn [run_proc presses button_of] in *.
  - rewrite Spot_Turn_On_outcome in *. now apply P.
  - rewrite Spot_Turn_Off_outcome in *. now apply P.
  - rewrite Spot_Message_OK_outcome, new_events_Done.
    split; [reflexivity|]. apply pulse_around_message. discriminate.
  - rewrite Spot_Message_Custom_outcome, new_events_Done.
    split; [reflexivity|]. apply pulse_around_message. discriminate.
Qed.

Lemma indicator_pulse_when_pressed_witness :
  run_proc demo_sense TurnOn 5 boot
  = Done tt (final (run_proc demo_sense TurnOn 5 boot))
  /\ led_events (new_events boot (run_proc demo_sense TurnOn 5 boot)) = led_pulse
  /\ pulse_around SpotOnOffButton (new_events boot (run_proc demo_sense TurnOn 5 boot)).
Proof.
  assert (H : run_proc demo_sense TurnOn 5 boot
              = Done tt (final (run_proc demo_sense TurnOn 5 boot)))
    by (vm_compute; reflexivity).
  split; [exact H|].
  exact (indicator_pulse_when_pressed demo_sense TurnOn 5%nat boot _ H).
Defined.

(** * Full cycles *)

Lemma run_demo_78 :
  run demo_sense 5 78 = Done tt (final (run demo_sense 5 78)).
Proof. vm_compute. reflexivity. Qed.

(** C2 as stated, with 1 + N + 1 + N ticks, fails: after 78 ticks from cold start
    the machine is in [Power_Off_2], three procedures into the cycle. *)
Lemma back_after_78_fails :
  ~ back_after (Z.to_nat (1 + kSpotOnTime + 1 + kSpotOnTime)).
Proof.
  intro H. destruct (H demo_sense 5%nat _ run_demo_78) as [S _].
  destruct (run_ctl _ _ _ _ run_demo_78) as (G & _).
  unfold ctl_of in G. rewrite S in G.
  vm_compute in G. discriminate.
Qed.

Lemma calls_before_139 :
  forallb (fun n => negb (length (map snd (ctl_timeline 1 n cold)) =? 6)%nat)
          (seq 0 139) = true.
Proof. vm_compute. reflexivity. Qed.

(** C2 (amended). From cold start, after exactly 1 + 1 + N + M + 1 + N = 139
    ticks the machine is back in [Power_Off] and has entered, in this order,
    [Spot_Turn_On], [Spot_Message_OK], [Spot_Turn_Off], [Spot_Turn_On],
    [Spot_Message_Custom], [Spot_Turn_Off]; after fewer ticks the cycle is
    not complete; with a device that answers the run gets there. *)
Theorem full_cycle_after_139 :
  back_after (Z.to_nat (1 + 1 + kSpotOnTime + kSpotOffTime + 1 + kSpotOnTime))
  /\ (forall sense fuel n m',
        (n < 139)%nat -> run sense fuel n = Done tt m' ->
        calls_of (trace m') <> full_cycle)
  /\ (forall sense, responsive sense ->
        exists fuel m', run sense fuel 139 = Done tt m').
Proof.
  split; [|split].
  - intros sense fuel m' H.
    change (Z.to_nat (1 + 1 + kSpotOnTime + kSpotOffTime + 1 + kSpotOnTime))
      with 139%nat in H.
    destruct (run_ctl _ _ _ _ H) as (G & _ & C). split.
    + assert (E : snd (fst (ctl_of m')) = Power_Off)
        by (rewrite G; vm_compute; reflexivity).
      exact E.
    + rewrite C. vm_compute. reflexivity.
  - intros sense fuel n m' Hn H. destruct (run_ctl _ _ _ _ H) as (_ & _ & C).
    rewrite C. pose proof calls_before_139 as F.
    rewrite forallb_forall in F.
    assert (I : In n (seq 0 139)) by (apply in_seq; lia).
    specialize (F n I). intro E. rewrite E in F. discriminate.
  - intros sense R. destruct (run_returns sense R 139) as (f & m' & H).
    exists f, m'. apply H. lia.
Qed.

Lemma run_demo_139 :
  run demo_sense 5 139 = Done tt (final (run demo_sense 5 139)).
Proof. vm_compute. reflexivity. Qed.

Lemma full_cycle_after_139_witness :
  run demo_sense 5 139 = Done tt (final (run demo_sense 5 139))
  /\ SpotGPSState (final (run demo_sense 5 139)) = Power_Off
  /\ calls_of (trace (final (run demo_sense 5 139))) = full_cycle.
Proof.
  split; [exact run_demo_139|].
  exact (proj1 full_cycle_after_139 demo_sense 5%nat _ run_demo_139).
Defined.

(** * The schedule *)

(** C3 as stated fails at the second tick: the sketch
    enters [Spot_Message_OK] there, not at tick 39. *)
Lemma spec_schedule_fails : ~ follows spec_schedule.
Proof.
  intro H.
  assert (R : run demo_sense 5 2 = Done tt (final (run demo_sense 5 2)))
    by (vm_compute; reflexivity).
  specialize (H demo_sense 5%nat 2%nat _ R).
  vm_compute in H. discriminate.
Qed.

(** C3 (amended). With [kSpotOnTime] = 38 and [kSpotOffTime] = 60, counting
    ticks from 1 at cold start, the procedures are entered at tick 1
    ([Spot_Turn_On]), 2 ([Spot_Message_OK]), 40 ([Spot_Turn_Off]), 100
    ([Spot_Turn_On]), 101 ([Spot_Message_Custom]) and 139 ([Spot_Turn_Off]),
    at no other tick up to 198, and from then on the same pattern repeats
    with period 198; with a device that answers the run reaches every
    tick. *)
Theorem schedule_from_cold_start :
  follows schedule
  /\ listing schedule 1 198
     = [(1, TurnOn); (2, MessageOK); (40, TurnOff);
        (100, TurnOn); (101, MessageCustom); (139, TurnOff)]%nat
  /\ (forall t, (1 <= t)%nat -> schedule (t + 198) = schedule t)
  /\ (forall sense n, responsive sense ->
        exists fuel m', run sense fuel n = Done tt m').
Proof.
  split; [|split; [|split]].
  - intros sense fuel n m' H. destruct (run_ctl _ _ _ _ H) as (_ & T & _).
    rewrite T. apply (ctl_timeline_listing n 0).
  - vm_compute. reflexivity.
  - apply schedule_period.
  - intros sense n R. destruct (run_returns sense R n) as (f & m' & H).
    exists f, m'. apply H. lia.
Qed.

Lemma run_demo_400 :
  run demo_sense 5 400 = Done tt (final (run demo_sense 5 400)).
Proof. vm_compute. reflexivity. Qed.

Lemma schedule_from_cold_start_witness :
  run demo_sense 5 400 = Done tt (final (run demo_sense 5 400))
  /\ timeline (trace (final (run demo_sense 5 400))) = listing schedule 1 400.
Proof.
  split; [exact run_demo_400|].
  exact (proj1 schedule_from_cold_start demo_sense 5%nat 400%nat _ run_demo_400).
Defined.

(** * Whole runs *)

Lemma power_outcome_done (sense : nat -> Level) (p : Proc) (fuel : nat)
      (m m' : Machine) :
  is_message p = false ->
  power_outcome sense p (from_of p) fuel m = Done tt m' ->
  exists evs r, m' = extend evs r m /\ proc_done p evs
                /\ last_read_from None evs = Some (other (from_of p)).
Proof.
  intros Hp. unfold power_outcome, proc_done. rewrite Hp.
  destruct (Level_eqb (sense (reads m)) (from_of p)).
  - destruct (first_change sense (from_of p) (S (reads m)) fuel) as [k|];
      [|discriminate].
    intro E; injection E as <-. do 2 eexists. split; [reflexivity|].
    split; [right; exists k; reflexivity|].
    assert (L : forall l j tl, last_read_from l (polls (from_of p) j ++ tl)
                               = last_read_from
                                   (match j with O => l | S _ => Some (from_of p) end) tl).
    { intros l j. revert l. induction j as [|j IH]; intros l tl; [reflexivity|].
      simpl. rewrite IH. destruct j; reflexivity. }
    cbn [press_prefix app last_read_from]. rewrite L. reflexivity.
  - intro E; injection E as <-. do 2 eexists. split; [reflexivity|].
    split; [left; reflexivity|]. reflexivity.
Qed.

Lemma run_proc_done (sense : nat -> Level) (p : Proc) (fuel : nat)
      (m m' : Machine) :
  run_proc sense p fuel m = Done tt m' ->
  exists evs r, m' = extend evs r m /\ proc_done p evs.
Proof.
  destruct p; cbn [run_proc].
  - rewrite Spot_Turn_On_outcome. intro H.
    destruct (power_outcome_done sense TurnOn fuel m m' eq_refl H)
      as (evs & r & ? & ? & _); eauto.
  - rewrite Spot_Turn_Off_outcome. intro H.
    destruct (power_outcome_done sense TurnOff fuel m m' eq_refl H)
      as (evs & r & ? & ? & _); eauto.
  - rewrite Spot_Message_OK_outcome. intro E; injection E as <-.
    do 2 eexists. split; reflexivity.
  - rewrite Spot_Message_Custom_outcome. intro E; injection E as <-.
    do 2 eexists. split; reflexivity.
Qed.

Lemma run_proc_spin (sense : nat -> Level) (p : Proc) (fuel : nat)
      (m m' : Machine) :
  run_proc sense p fuel m = Spinning m' ->
  is_message p = false
  /\ m' = extend (press_prefix p (from_of p) ++ polls (from_of p) fuel) (S fuel) m
  /\ sense (reads m) = from_of p
  /\ forall j, (j < fuel)%nat -> sense (S (reads m) + j)%nat = from_of p.
Proof.
  assert (P : forall q, is_message q = false ->
            power_outcome sense q (from_of q) fuel m = Spinning m' ->
            is_message q = false
            /\ m' = extend (press_prefix q (from_of q) ++ polls (from_of q) fuel)
                           (S fuel) m
            /\ sense (reads m) = from_of q
            /\ forall j, (j < fuel)%nat -> sense (S (reads m) + j)%nat = from_of q).
  { intros q Hq. unfold power_outcome.
    destruct (Level_eqb (sense (reads m)) (from_of q)) eqn:E; [|discriminate].
    destruct (first_change sense (from_of q) (S (reads m)) fuel) as [k|] eqn:F;
      [discriminate|].
    intro D; injection D as <-. split; [exact Hq|]. split; [reflexivity|].
    split; [now apply Level_eqb_eq | now apply first_change_None]. }
  destruct p; cbn [run_proc].
  - rewrite Spot_Turn_On_outcome. now apply P.
  - rewrite Spot_Turn_Off_outcome. now apply P.
  - rewrite Spot_Message_OK_outcome. discriminate.
  - rewrite Spot_Message_Custom_outcome. discriminate.
Qed.

(** A pass of [loop] that returns: an idle tick, or a tick that ran the
    case of the [switch] for the current state to its end. *)
Lemma loop_step (sense : nat -> Level) (fuel : nat) (m m' : Machine) :
  loop sense fuel m = Done tt m' ->
  (wrap16 (counter8s m + 1) < q8SecondBlocks m
   /\ m' = extend sleep_events 0 (set_counter8s (wrap16 (counter8s m + 1)) m))
  \/ (q8SecondBlocks m <= wrap16 (counter8s m + 1)
      /\ exists p nx th evs r,
          dispatch (SpotGPSState m) = (p, nx, th)
          /\ run_proc sense p fuel (set_counter8s 0 m)
             = Done tt (extend evs r (set_counter8s 0 m))
          /\ proc_done p evs
          /\ m' = extend sleep_events 0
                    (set_q8SecondBlocks th
                       (set_SpotGPSState nx (extend evs r (set_counter8s 0 m))))).
Proof.
  rewrite loop_unfold, EightSeconds_unfold.
  destruct (Z.geb_spec (wrap16 (counter8s m + 1)) (q8SecondBlocks m)) as [G|G].
  - destruct (dispatch (SpotGPSState m)) as [[p nx] th] eqn:D.
    rewrite (action_dispatch sense fuel (set_counter8s 0 m) p nx th D).
    unfold bind, modify.
    destruct (run_proc sense p fuel (set_counter8s 0 m)) as [[] m1|m1] eqn:R;
      [|discriminate].
    intro E; injection E as <-. right. split; [lia|].
    destruct (run_proc_done _ _ _ _ _ R) as (evs & r & -> & PD).
    exists p, nx, th, evs, r. auto.
  - intro E; injection E as <-. left. split; [lia|reflexivity].
Qed.

Lemma loop_spin (sense : nat -> Level) (fuel : nat) (m m' : Machine) :
  loop sense fuel m = Spinning m' ->
  exists p,
    is_message p = false
    /\ fst (fst (dispatch (SpotGPSState m))) = p
    /\ m' = extend (press_prefix p (from_of p) ++ polls (from_of p) fuel) (S fuel)
                   (set_counter8s 0 m)
    /\ sense (reads m) = from_of p
    /\ forall j, (j < fuel)%nat -> sense (S (reads m) + j)%nat = from_of p.
Proof.
  rewrite loop_unfold, EightSeconds_unfold.
  destruct (wrap16 (counter8s m + 1) >=? q8SecondBlocks m); [|discriminate].
  destruct (dispatch (SpotGPSState m)) as [[p nx] th] eqn:D.
  rewrite (action_dispatch sense fuel (set_counter8s 0 m) p nx th D).
  unfold bind, modify.
  destruct (run_proc sense p fuel (set_counter8s 0 m)) as [[] m1|m1] eqn:R;
    [discriminate|].
  intro E; injection E as <-.
  destruct (run_proc_spin _ _ _ _ _ R) as (Hp & -> & Hs & Hj).
  exists p. auto.
Qed.

Lemma loop_done_blocks (sense : nat -> Level) (fuel : nat) (m m' : Machine) :
  loop sense fuel m = Done tt m' ->
  exists b, tick_done b /\ trace m' = trace m ++ b ++ sleep_events.
Proof.
  intro H. destruct (loop_step _ _ _ _ H)
    as [(_ & ->) | (_ & p & nx & th & evs & r & _ & _ & PD & ->)].
  - exists []. split; [left; reflexivity|reflexivity].
  - exists evs. split; [right; eauto|].
    cbn [trace extend set_q8SecondBlocks set_SpotGPSState set_counter8s].
    now rewrite app_assoc.
Qed.

Lemma asleep_cons (b : list Event) (bs : list (list Event)) :
  asleep (b :: bs) = b ++ sleep_events ++ asleep bs.
Proof. unfold asleep. simpl. now rewrite <- app_assoc. Qed.

Lemma loops_blocks (sense : nat -> Level) (fuel : nat) :
  forall n m,
    match loops sense fuel n m with
    | Done _ m' =>
        exists blocks,
          length blocks = n /\ Forall tick_done blocks
          /\ trace m' = trace m ++ asleep blocks
    | Spinning m' =>
        exists blocks p,
          (length blocks < n)%nat /\ Forall tick_done blocks
          /\ is_message p = false
          /\ trace m' = trace m ++ asleep blocks
                          ++ press_prefix p (from_of p) ++ polls (from_of p) fuel
          /\ counter8s m' = 0
          /\ fst (fst (dispatch (SpotGPSState m'))) = p
    end.
Proof.
  induction n as [|n IH]; intro m.
  - cbn [loops ret]. exists []. rewrite app_nil_r. repeat split. constructor.
  - cbn [loops]. unfold bind.
    destruct (loop sense fuel m) as [[] m1|m1] eqn:L.
    + destruct (loop_done_blocks _ _ _ _ L) as (b & Tb & T1).
      specialize (IH m1).
      destruct (loops sense fuel n m1) as [[] m2|m2].
      * destruct IH as (bs & Hl & Hf & T2). exists (b :: bs).
        split; [simpl; lia|]. split; [now constructor|].
        rewrite T2, T1, asleep_cons, <- !app_assoc. reflexivity.
      * destruct IH as (bs & p & Hl & Hf & Hp & T2 & Hc & Hd).
        exists (b :: bs), p. split; [simpl; lia|]. split; [now constructor|].
        split; [exact Hp|]. split; [|auto].
        rewrite T2, T1, asleep_cons, <- !app_assoc. reflexivity.
    + destruct (loop_spin _ _ _ _ L) as (p & Hp & Hd & -> & _).
      exists [], p. split; [simpl; lia|]. split; [constructor|]. split; [exact Hp|].
      split; [reflexivity|]. split; [reflexivity|exact Hd].
Qed.

Lemma sleeps_tick_done (b : list Event) : tick_done b -> sleeps b = O.
Proof.
  intros [->|[p PD]]; [reflexivity|]. unfold proc_done in PD.
  destruct p; cbn [is_message] in PD;
    try (subst b; reflexivity);
    destruct PD as [->|[k ->]]; try reflexivity;
    rewrite !sleeps_app, sleeps_polls; reflexivity.
Qed.

Lemma sleeps_asleep (blocks : list (list Event)) :
  Forall tick_done blocks -> sleeps (asleep blocks) = length blocks.
Proof.
  induction 1 as [|b bs Hb _ IH]; [reflexivity|].
  rewrite asleep_cons, !sleeps_app, IH, (sleeps_tick_done b Hb). reflexivity.
Qed.

Lemma run_is_ticks_and_sleeps_aux (sense : nat -> Level) (fuel n : nat)
      (m' : Machine) :
  run sense fuel n = Done tt m' ->
  exists blocks,
    Forall tick_done blocks /\ trace m' = asleep blocks.
Proof.
  intro H. unfold run in H. unfold bind at 1 in H. rewrite setup_boot in H.
  pose proof (loops_blocks sense fuel n (mkMachine 0 Power_Off 1 0 [])) as B.
  rewrite H in B. destruct B as (blocks & _ & Hf & T). eauto.
Qed.

(** X3. The trace of a run that came through [n] passes of [loop] is [n]
    blocks, each the events of one tick (nothing, or one procedure that
    returned) followed by the same fourteen steps to sleep: ADC off, reset
    flags cleared, watchdog put in interrupt mode with the 8 s period and
    reset, power-down sleep with brown-out detection off, and the watchdog
    disabled by its interrupt on wake-up.  The processor sleeps exactly once
    per pass and never inside a procedure. *)
Theorem run_is_ticks_and_sleeps :
  forall (sense : nat -> Level) (fuel n : nat) (m' : Machine),
    run sense fuel n = Done tt m' ->
    exists blocks,
      length blocks = n
      /\ Forall tick_done blocks
      /\ Forall (fun b => sleeps b = O) blocks
      /\ trace m' = asleep blocks
      /\ sleeps (trace m') = n.
Proof.
  intros sense fuel n m' H. unfold run in H. unfold bind at 1 in H.
  rewrite setup_boot in H.
  pose proof (loops_blocks sense fuel n (mkMachine 0 Power_Off 1 0 [])) as B.
  rewrite H in B. destruct B as (blocks & Hl & Hf & T).
  exists blocks. cbn [trace app] in T.
  split; [exact Hl|]. split; [exact Hf|]. split.
  - eapply Forall_impl; [|exact Hf]. apply sleeps_tick_done.
  - split; [exact T|]. rewrite T, sleeps_asleep; assumption.
Qed.

Lemma run_is_ticks_and_sleeps_witness :
  run demo_sense 5 139 = Done tt (final (run demo_sense 5 139))
  /\ sleeps (trace (final (run demo_sense 5 139))) = 139%nat.
Proof.
  split; [exact run_demo_139|].
  destruct (run_is_ticks_and_sleeps demo_sense 5 139 _ run_demo_139)
    as (blocks & _ & _ & _ & _ & S).
  exact S.
Defined.

Lemma pin_state_on (tr : list Event) (p : Proc) (from : Level) (k : nat) :
  pin_mode LED (tr ++ press_prefix p from ++ polls from k) = OUTPUT
  /\ pin_latch LED (tr ++ press_prefix p from ++ polls from k) = HIGH.
Proof.
  unfold pin_mode, pin_latch.
  rewrite !fold_left_app, fold_mode_polls, fold_latch_polls.
  split; reflexivity.
Qed.

(** X4. A run can fail to return in one way only: polling inside
    [Spot_Turn_On] or [Spot_Turn_Off].  At that point every earlier tick is
    complete, the power button is held down, the LED is on, [counter8s] has
    been reset and [SpotGPSState] still names the state whose case is being
    executed. *)
Theorem blocked_run_holds_power_button :
  forall (sense : nat -> Level) (fuel n : nat) (m' : Machine),
    run sense fuel n = Spinning m' ->
    exists blocks p,
      (length blocks < n)%nat
      /\ Forall tick_done blocks
      /\ (p = TurnOn \/ p = TurnOff)
      /\ fst (fst (dispatch (SpotGPSState m'))) = p
      /\ trace m' = asleep blocks
                      ++ press_prefix p (from_of p) ++ polls (from_of p) fuel
      /\ pressed SpotOnOffButton (trace m') = true
      /\ pin_mode LED (trace m') = OUTPUT
      /\ pin_latch LED (trace m') = HIGH
      /\ counter8s m' = 0.
Proof.
  intros sense fuel n m' H. unfold run in H. unfold bind at 1 in H.
  rewrite setup_boot in H.
  pose proof (loops_blocks sense fuel n (mkMachine 0 Power_Off 1 0 [])) as B.
  rewrite H in B. destruct B as (blocks & p & Hl & Hf & Hp & T & Hc & Hd).
  cbn [trace app] in T. exists blocks, p.
  split; [exact Hl|]. split; [exact Hf|].
  split; [destruct p; try discriminate; auto|].
  split; [exact Hd|]. split; [exact T|]. rewrite T.
  destruct (pin_state_held (asleep blocks) p (from_of p) fuel) as [M L].
  destruct (pin_state_on (asleep blocks) p (from_of p) fuel) as [M' L'].
  unfold pressed. rewrite M, L, M', L'. auto.
Qed.

Lemma run_dead_3 :
  run dead_sense 7 3 = Spinning (final (run dead_sense 7 3)).
Proof. vm_compute. reflexivity. Qed.

Lemma blocked_run_holds_power_button_witness :
  run dead_sense 7 3 = Spinning (final (run dead_sense 7 3))
  /\ pressed SpotOnOffButton (trace (final (run dead_sense 7 3))) = true.
Proof.
  split; [exact run_dead_3|].
  destruct (blocked_run_holds_power_button dead_sense 7 3 _ run_dead_3)
    as (blocks & p & _ & _ & _ & _ & _ & P & _).
  exact P.
Defined.

(** * Pin discipline *)

Lemma pin_mode_fold (pin : Z) (tr : list Event) :
  pin_mode pin tr = fold_left (mode_step pin) tr INPUT.
Proof. reflexivity. Qed.

Lemma mode_step_polls (pin : Z) (lvl : Level) (k : nat) (md : PinMode) :
  fold_left (mode_step pin) (polls lvl k) md = md.
Proof. induction k; simpl; auto. Qed.

Lemma tick_done_cases (b : list Event) :
  tick_done b ->
  b = []
  \/ b = message_events MessageOK SpotOkMsgButton
  \/ b = message_events MessageCustom SpotCustomMsgButton
  \/ (exists p, is_message p = false /\ b = skip_events p (from_of p))
  \/ (exists p k, is_message p = false
                  /\ b = press_prefix p (from_of p) ++ polls (from_of p) k
                           ++ release_suffix (from_of p)).
Proof.
  intros [->|[p PD]]; [auto|]. unfold proc_done in PD.
  destruct (is_message p) eqn:E.
  - destruct p; try discriminate; subst b; auto.
  - destruct PD as [->|[k ->]]; [right; right; right; left | do 4 right]; eauto.
Qed.

Lemma mode_tick_done (pin : Z) (b : list Event) :
  tick_done b -> In pin (LED :: buttons) ->
  fold_left (mode_step pin) (b ++ sleep_events) INPUT = INPUT.
Proof.
  intros T I.
  assert (C : pin = 13 \/ pin = 9 \/ pin = 10 \/ pin = 11).
  { simpl in I. unfold LED, SpotOnOffButton, SpotOkMsgButton,
      SpotCustomMsgButton in I. intuition auto. }
  destruct (tick_done_cases b T)
    as [->|[->|[->|[(p & _ & ->)|(p & k & _ & ->)]]]];
    rewrite ?fold_left_app; cbn [press_prefix fold_left];
    rewrite ?fold_left_app, ?mode_step_polls;
    destruct C as [->|[->|[->| ->]]]; reflexivity.
Qed.

Lemma mode_asleep (pin : Z) (blocks : list (list Event)) :
  Forall tick_done blocks -> In pin (LED :: buttons) ->
  fold_left (mode_step pin) (asleep blocks) INPUT = INPUT.
Proof.
  intros F I. induction F as [|b bs Hb _ IH]; [reflexivity|].
  rewrite asleep_cons, app_assoc, fold_left_app, (mode_tick_done pin b Hb I).
  exact IH.
Qed.

(** X5. Whenever a run has come through a pass of [loop], that is whenever
    the processor sleeps, the power button line, both message button lines
    and the LED line are inputs again: no button is pressed and the LED is
    not driven while the processor sleeps. *)
Theorem lines_released_while_asleep :
  forall (sense : nat -> Level) (fuel n : nat) (m' : Machine),
    run sense fuel n = Done tt m' ->
    (forall pin, In pin (LED :: buttons) ->
                 pin_mode pin (trace m') = INPUT
                 /\ pressed pin (trace m') = false)
    /\ pressed_buttons (trace m') = []
    /\ output_buttons (trace m') = [].
Proof.
  intros sense fuel n m' H.
  destruct (run_is_ticks_and_sleeps_aux sense fuel n m' H) as (blocks & Hf & T).
  assert (A : forall pin, In pin (LED :: buttons) ->
                          pin_mode pin (trace m') = INPUT).
  { intros pin I. rewrite T, pin_mode_fold. now apply mode_asleep. }
  split; [|split].
  - intros pin I. split; [now apply A|]. unfold pressed. now rewrite (A pin I).
  - unfold pressed_buttons, pressed, buttons. cbn [filter].
    rewrite !A by (simpl; tauto). reflexivity.
  - unfold output_buttons, buttons. cbn [filter].
    rewrite !A by (simpl; tauto). reflexivity.
Qed.

Lemma lines_released_while_asleep_witness :
  run demo_sense 5 139 = Done tt (final (run demo_sense 5 139))
  /\ pressed_buttons (trace (final (run demo_sense 5 139))) = [].
Proof.
  split; [exact run_demo_139|].
  exact (proj1 (proj2 (lines_released_while_asleep demo_sense 5 139 _ run_demo_139))).
Defined.

(** ** One button at a time *)

Lemma step3_fold (tr : list Event) :
  forall a b c,
    fold_left step3 tr (a, b, c)
    = (fold_left (mode_step SpotOnOffButton) tr a,
       fold_left (mode_step SpotOkMsgButton) tr b,
       fold_left (mode_step SpotCustomMsgButton) tr c).
Proof. induction tr as [|e tr IH]; intros a b c; [reflexivity|]. simpl. apply IH. Qed.

Lemma scan3_head (s : PinMode * PinMode * PinMode) (tr : list Event) :
  scan3 s tr = true -> (outputs3 s <= 1)%nat.
Proof.
  destruct tr; simpl; intro H; apply andb_prop in H; destruct H as [H _];
    now apply Nat.leb_le.
Qed.

Lemma scan3_app (a : list Event) :
  forall s b, scan3 s (a ++ b) = scan3 s a && scan3 (fold_left step3 a s) b.
Proof.
  induction a as [|e a IH]; intros s b.
  - cbn [app fold_left]. destruct b; simpl;
      destruct (outputs3 s <=? 1)%nat; reflexivity.
  - cbn [app scan3 fold_left]. rewrite IH. now rewrite andb_assoc.
Qed.

Lemma scan3_prefix (s : PinMode * PinMode * PinMode) (tr a b : list Event) :
  scan3 s tr = true -> tr = a ++ b -> (outputs3 (fold_left step3 a s) <= 1)%nat.
Proof.
  intros H ->. rewrite scan3_app in H. apply andb_prop in H.
  destruct H as [_ H]. now apply scan3_head in H.
Qed.

Lemma step3_polls (lvl : Level) (k : nat) (s : PinMode * PinMode * PinMode) :
  fold_left step3 (polls lvl k) s = s.
Proof.
  destruct s as [[a b] c]. rewrite step3_fold, !mode_step_polls. reflexivity.
Qed.

Lemma scan3_polls (lvl : Level) (k : nat) (s : PinMode * PinMode * PinMode) :
  (outputs3 s <= 1)%nat -> scan3 s (polls lvl k) = true.
Proof.
  intro H. apply Nat.leb_le in H. induction k as [|k IH]; simpl.
  - now rewrite H.
  - destruct s as [[a b] c]. cbn [step3 mode_step]. rewrite !H. simpl.
    exact IH.
Qed.

Lemma scan3_tick_done (b : list Event) :
  tick_done b ->
  scan3 all_inputs (b ++ sleep_events) = true
  /\ fold_left step3 (b ++ sleep_events) all_inputs = all_inputs.
Proof.
  intro T.
  destruct (tick_done_cases b T)
    as [->|[->|[->|[(p & _ & ->)|(p & k & _ & ->)]]]];
    try (split; reflexivity).
  rewrite <- !app_assoc, !scan3_app, !fold_left_app, !step3_polls.
  rewrite scan3_polls by (simpl; lia).
  split; reflexivity.
Qed.

Lemma scan3_asleep (blocks : list (list Event)) :
  Forall tick_done blocks ->
  scan3 all_inputs (asleep blocks) = true
  /\ fold_left step3 (asleep blocks) all_inputs = all_inputs.
Proof.
  induction 1 as [|b bs Hb _ [IH1 IH2]]; [split; reflexivity|].
  destruct (scan3_tick_done b Hb) as [S1 S2].
  rewrite asleep_cons, app_assoc, scan3_app, S1, S2.
  rewrite fold_left_app, S2. auto.
Qed.

Lemma scan3_run (sense : nat -> Level) (fuel n : nat) :
  scan3 all_inputs (trace (final (run sense fuel n))) = true.
Proof.
  unfold run. unfold bind at 1. rewrite setup_boot.
  pose proof (loops_blocks sense fuel n (mkMachine 0 Power_Off 1 0 [])) as B.
  destruct (loops sense fuel n (mkMachine 0 Power_Off 1 0 [])) as [[] m'|m'];
    cbn [final].
  - destruct B as (blocks & _ & Hf & ->). cbn [trace app].
    now apply scan3_asleep.
  - destruct B as (blocks & p & _ & Hf & _ & -> & _). cbn [trace app].
    destruct (scan3_asleep blocks Hf) as [S1 S2].
    rewrite scan3_app, S1, S2, scan3_app.
    rewrite scan3_polls; [reflexivity|]. simpl. lia.
Qed.

Lemma outputs3_buttons (tr : list Event) :
  length (output_buttons tr)
  = outputs3 (fold_left step3 tr all_inputs).
Proof.
  unfold all_inputs. rewrite step3_fold, <- !pin_mode_fold.
  unfold output_buttons, buttons, outputs3. cbn [filter].
  destruct (pin_mode SpotOnOffButton tr), (pin_mode SpotOkMsgButton tr),
    (pin_mode SpotCustomMsgButton tr); reflexivity.
Qed.

Lemma pressed_le_outputs (tr : list Event) :
  (length (pressed_buttons tr) <= length (output_buttons tr))%nat.
Proof.
  unfold pressed_buttons, output_buttons, pressed, buttons. cbn [filter].
  destruct (pin_mode SpotOnOffButton tr), (pin_mode SpotOkMsgButton tr),
    (pin_mode SpotCustomMsgButton tr),
    (pin_latch SpotOnOffButton tr), (pin_latch SpotOkMsgButton tr),
    (pin_latch SpotCustomMsgButton tr); simpl; lia.
Qed.

(** X8. At no moment of any run, returned or still polling, is more than
    one of the three button lines configured as an output; so the sketch
    never presses two buttons of the SPOT at the same time. *)
Theorem one_button_at_a_time :
  forall (sense : nat -> Level) (fuel n : nat) (a b : list Event),
    trace (final (run sense fuel n)) = a ++ b ->
    (length (output_buttons a) <= 1)%nat
    /\ (length (pressed_buttons a) <= 1)%nat.
Proof.
  intros sense fuel n a b H.
  assert (O : (length (output_buttons a) <= 1)%nat).
  { rewrite outputs3_buttons.
    exact (scan3_prefix _ _ a b (scan3_run sense fuel n) H). }
  split; [exact O|]. pose proof (pressed_le_outputs a). lia.
Qed.

Lemma one_button_at_a_time_witness :
  trace (final (run demo_sense 5 2))
  = firstn 30 (trace (final (run demo_sense 5 2)))
      ++ skipn 30 (trace (final (run demo_sense 5 2)))
  /\ (length (pressed_buttons (firstn 30 (trace (final (run demo_sense 5 2)))))
      <= 1)%nat.
Proof.
  assert (H : trace (final (run demo_sense 5 2))
              = firstn 30 (trace (final (run demo_sense 5 2)))
                  ++ skipn 30 (trace (final (run demo_sense 5 2))))
    by (symmetry; apply firstn_skipn).
  split; [exact H|].
  exact (proj2 (one_button_at_a_time demo_sense 5 2 _ _ H)).
Defined.

(** * How long the buttons are held *)

(** X1. [Spot_Message_OK] and [Spot_Message_Custom] always return, whatever
    the device does; they change no variable and take no sample of the
    feedback line; they touch no line but their own button and the LED;
    whatever the line was before, the button is driven low for exactly the
    4000 ms of the one [delay], and it is an input again on return. *)
Theorem message_button_held_4s :
  forall (sense : nat -> Level) (p : Proc) (fuel : nat) (m : Machine),
    is_message p = true ->
    exists m',
      run_proc sense p fuel m = Done tt m'
      /\ ctl_of m' = ctl_of m
      /\ reads m' = reads m
      /\ (forall md v,
            held_ms_from (button_of p) md v (new_events m (Done tt m')) = 4000)
      /\ (forall pin, pin <> button_of p -> pin <> LED ->
            existsb (drives pin) (new_events m (Done tt m')) = false)
      /\ last_read_from None (new_events m (Done tt m')) = None
      /\ count_feeds (new_events m (Done tt m')) = O
      /\ pin_mode (button_of p) (trace m') = INPUT.
Proof.
  intros sense p fuel m Hp.
  exists (extend (message_events p (button_of p)) 0 m).
  assert (R : run_proc sense p fuel m
              = Done tt (extend (message_events p (button_of p)) 0 m)).
  { destruct p; try discriminate; cbn [run_proc button_of].
    - apply Spot_Message_OK_outcome.
    - apply Spot_Message_Custom_outcome. }
  split; [exact R|]. rewrite new_events_Done.
  split; [reflexivity|]. split; [apply Nat.add_0_r|].
  split; [|split; [|split; [|split]]].
  - intros md v. destruct p; try discriminate; reflexivity.
  - intros pin H1 H2. unfold message_events. cbn [existsb drives].
    destruct (Z.eqb_spec (button_of p) pin); [congruence|].
    destruct (Z.eqb_spec LED pin); [congruence|]. reflexivity.
  - reflexivity.
  - reflexivity.
  - cbn [trace extend]. unfold pin_mode. rewrite fold_left_app.
    destruct p; try discriminate; reflexivity.
Qed.

Lemma message_button_held_4s_witness :
  is_message MessageCustom = true
  /\ exists m',
      run_proc dead_sense MessageCustom 0 boot = Done tt m'
      /\ held_ms_from SpotCustomMsgButton OUTPUT HIGH
                      (new_events boot (@Done unit tt m')) = 4000.
Proof.
  split; [reflexivity|].
  destruct (message_button_held_4s dead_sense MessageCustom 0 boot eq_refl)
    as (m' & R & _ & _ & Hh & _).
  exists m'. split; [exact R|]. exact (Hh OUTPUT HIGH).
Defined.

Lemma held_polls (pin : Z) (lvl : Level) (k : nat) (md : PinMode) (v : Level)
      (tl : list Event) :
  held_ms_from pin md v (polls lvl k ++ tl)
  = Z.of_nat k * (match md, v with OUTPUT, LOW => 100 | _, _ => 0 end)
    + held_ms_from pin md v tl.
Proof.
  induction k as [|k IH]; [simpl; lia|].
  cbn [polls one_poll app held_ms_from]. rewrite IH.
  destruct md, v; lia.
Qed.

(** X2. A call of [Spot_Turn_On] or [Spot_Turn_Off] that returns takes one
    sample and leaves the power button alone when the device is already in
    the requested state; otherwise it takes [k + 2] samples for some [k] and
    holds the power button down for exactly [100 * k] ms: 100 ms for each
    sample in the loop that still showed the old state. *)
Theorem power_button_held_per_poll :
  forall (sense : nat -> Level) (p : Proc) (fuel : nat) (m m' : Machine),
    is_message p = false ->
    run_proc sense p fuel m = Done tt m' ->
    (presses sense p m = false ->
     reads m' = S (reads m)
     /\ forall md v,
         held_ms_from SpotOnOffButton md v (new_events m (Done tt m')) = 0)
    /\ (presses sense p m = true ->
        exists k,
          (k < fuel)%nat
          /\ reads m' = (reads m + 2 + k)%nat
          /\ forall md v,
              held_ms_from SpotOnOffButton md v (new_events m (Done tt m'))
              = 100 * Z.of_nat k).
Proof.
  intros sense p fuel m m' Hp R.
  assert (E : run_proc sense p fuel m = power_outcome sense p (from_of p) fuel m).
  { destruct p; try discriminate; cbn [run_proc from_of].
    - apply Spot_Turn_On_outcome.
    - apply Spot_Turn_Off_outcome. }
  assert (Q : presses sense p m = Level_eqb (sense (reads m)) (from_of p)).
  { destruct p; try discriminate; reflexivity. }
  rewrite E in R. unfold power_outcome in R. rewrite Q.
  destruct (Level_eqb (sense (reads m)) (from_of p)).
  - destruct (first_change sense (from_of p) (S (reads m)) fuel) as [k|] eqn:F;
      [|discriminate].
    injection R as <-. split; [discriminate|]. intros _. exists k.
    destruct (first_change_Some sense _ _ _ _ F) as (Hk & _).
    split; [exact Hk|]. split; [cbn [reads extend]; lia|].
    intros md v. rewrite new_events_Done.
    cbn [press_prefix app held_ms_from].
    change (SpotOn3VSense =? SpotOnOffButton) with false.
    change (LED =? SpotOnOffButton) with false.
    change (SpotOnOffButton =? SpotOnOffButton) with true. cbv iota.
    rewrite held_polls. cbn [release_suffix held_ms_from].
    change (LED =? SpotOnOffButton) with false.
    change (SpotOnOffButton =? SpotOnOffButton) with true. cbv iota.
    lia.
  - injection R as <-. split; [|discriminate]. intros _.
    split; [cbn [reads extend]; lia|].
    intros md v. rewrite new_events_Done. reflexivity.
Qed.

Lemma power_button_held_per_poll_witness :
  is_message TurnOn = false
  /\ run_proc demo_sense TurnOn 5 boot
     = Done tt (final (run_proc demo_sense TurnOn 5 boot))
  /\ presses demo_sense TurnOn boot = true
  /\ exists k,
      (k < 5)%nat
      /\ reads (final (run_proc demo_sense TurnOn 5 boot)) = (reads boot + 2 + k)%nat
      /\ forall md v,
          held_ms_from SpotOnOffButton md v
            (new_events boot
               (@Done unit tt (final (run_proc demo_sense TurnOn 5 boot))))
          = 100 * Z.of_nat k.
Proof.
  assert (R : run_proc demo_sense TurnOn 5 boot
              = Done tt (final (run_proc demo_sense TurnOn 5 boot)))
    by (vm_compute; reflexivity).
  split; [reflexivity|]. split; [exact R|]. split; [reflexivity|].
  exact (proj2 (power_button_held_per_poll demo_sense TurnOn 5 boot _ eq_refl R)
               eq_refl).
Defined.

(** * The feedback line and the state *)

Lemma last_read_from_app (a b : list Event) :
  forall l, last_read_from l (a ++ b) = last_read_from (last_read_from l a) b.
Proof.
  induction a as [|e a IH]; intro l; [reflexivity|].
  destruct e; simpl; apply IH.
Qed.

Lemma powered_at_messages_app (a b : list Event) :
  forall l, powered_at_messages l (a ++ b)
            = powered_at_messages l a
              && powered_at_messages (last_read_from l a) b.
Proof.
  induction a as [|e a IH]; intro l; [reflexivity|].
  destruct e; simpl; rewrite ?IH; try reflexivity.
  now rewrite andb_assoc.
Qed.

Lemma last_read_polls (lvl : Level) (k : nat) (l : option Level) :
  last_read_from l (polls lvl k)
  = match k with O => l | S _ => Some lvl end.
Proof.
  revert l. induction k as [|k IH]; intro l; [reflexivity|].
  simpl. rewrite IH. destruct k; reflexivity.
Qed.

Lemma powered_polls (lvl : Level) (k : nat) (l : option Level) :
  powered_at_messages l (polls lvl k) = true.
Proof. revert l. induction k as [|k IH]; intro l; simpl; auto. Qed.

Lemma power_done_feedback (p : Proc) (evs : list Event) (l : option Level) :
  is_message p = false -> proc_done p evs ->
  last_read_from l evs = Some (other (from_of p))
  /\ powered_at_messages l evs = true.
Proof.
  intros Hp PD. unfold proc_done in PD. rewrite Hp in PD.
  destruct PD as [->|[k ->]].
  - destruct p; try discriminate; split; reflexivity.
  - rewrite !last_read_from_app, !powered_at_messages_app, powered_polls.
    destruct p; try discriminate; split; reflexivity.
Qed.

Lemma message_done_feedback (p : Proc) (evs : list Event) (l : option Level) :
  is_message p = true -> proc_done p evs ->
  last_read_from l evs = l
  /\ powered_at_messages l evs
     = match l with Some HIGH => true | _ => false end.
Proof.
  intros Hp PD. unfold proc_done in PD. rewrite Hp in PD. subst evs.
  destruct p; try discriminate; split; try reflexivity;
    simpl; destruct l as [[]|]; reflexivity.
Qed.

Lemma loop_settled (sense : nat -> Level) (fuel : nat) (m m' : Machine) :
  loop sense fuel m = Done tt m' -> settled m -> settled m'.
Proof.
  intros H (Hd & Ha & Hm).
  destruct (loop_step _ _ _ _ H)
    as [(_ & ->) | (_ & p & nx & th & evs & r & D & _ & PD & ->)];
    unfold settled, last_read in *;
    cbn [trace extend SpotGPSState set_q8SecondBlocks set_SpotGPSState
           set_counter8s].
  - rewrite last_read_from_app, powered_at_messages_app, Hm. auto.
  - rewrite <- app_assoc, !last_read_from_app, !powered_at_messages_app, Hm.
    change (last_read_from (last_read_from (last_read_from None (trace m)) evs)
                           sleep_events)
      with (last_read_from (last_read_from None (trace m)) evs).
    change (powered_at_messages
              (last_read_from (last_read_from None (trace m)) evs) sleep_events)
      with true.
    rewrite andb_true_r. cbn [andb].
    destruct Ha as (A0 & A3 & AH).
    unfold defined_states in Hd. cbn [In] in Hd.
    destruct Hd as [E|[E|[E|[E|[E|[E|[]]]]]]]; rewrite <- E in D;
      injection D as <- <- <-.
    + destruct (power_done_feedback TurnOn evs (last_read_from None (trace m))
                  eq_refl PD) as [L P]. rewrite L, P.
      split; [simpl; tauto|]. split; [|reflexivity]. unfold agrees.
      repeat split; intros; try discriminate; reflexivity.
    + destruct (message_done_feedback MessageOK evs
                  (last_read_from None (trace m)) eq_refl PD) as [L P].
      rewrite L, P, AH by auto.
      split; [simpl; tauto|]. split; [|reflexivity]. unfold agrees.
      repeat split; intros; try discriminate; reflexivity.
    + destruct (power_done_feedback TurnOff evs (last_read_from None (trace m))
                  eq_refl PD) as [L P]. rewrite L, P.
      split; [simpl; tauto|]. split; [|reflexivity]. unfold agrees.
      repeat split; intros; try discriminate; try reflexivity.
      intuition discriminate.
    + destruct (power_done_feedback TurnOn evs (last_read_from None (trace m))
                  eq_refl PD) as [L P]. rewrite L, P.
      split; [simpl; tauto|]. split; [|reflexivity]. unfold agrees.
      repeat split; intros; try discriminate; reflexivity.
    + destruct (message_done_feedback MessageCustom evs
                  (last_read_from None (trace m)) eq_refl PD) as [L P].
      rewrite L, P, AH by auto.
      split; [simpl; tauto|]. split; [|reflexivity]. unfold agrees.
      repeat split; intros; try discriminate; reflexivity.
    + destruct (power_done_feedback TurnOff evs (last_read_from None (trace m))
                  eq_refl PD) as [L P]. rewrite L, P.
      split; [simpl; tauto|]. split; [|reflexivity]. unfold agrees.
      repeat split; intros; try discriminate; try reflexivity.
      * right; reflexivity.
      * intuition discriminate.
Qed.

Lemma loops_settled (sense : nat -> Level) (fuel : nat) :
  forall n m m', loops sense fuel n m = Done tt m' -> settled m -> settled m'.
Proof.
  induction n as [|n IH]; intros m m' H S.
  - injection H as <-. exact S.
  - cbn [loops] in H. unfold bind in H.
    destruct (loop sense fuel m) as [[] m1|m1] eqn:L; [|discriminate].
    exact (IH _ _ H (loop_settled _ _ _ _ L S)).
Qed.

Lemma run_settled (sense : nat -> Level) (fuel n : nat) (m' : Machine) :
  run sense fuel n = Done tt m' -> settled m'.
Proof.
  unfold run. unfold bind at 1. rewrite setup_boot. intro H.
  apply (loops_settled _ _ _ _ _ H).
  unfold settled, agrees, last_read. simpl.
  split; [tauto|]. split; [|reflexivity].
  repeat split; intros; try discriminate; auto.
  intuition discriminate.
Qed.

(** X6. Between the ticks of a run from cold start the state variable and
    the latest sample of the feedback line agree: in [Power_On],
    [Sending_Ok], [Power_On_2] and [Sending_Custom] the latest sample read
    high, in [Power_Off_2] it read low, and in [Power_Off] it read low or no
    sample has been taken yet. *)
Theorem state_agrees_with_feedback :
  forall (sense : nat -> Level) (fuel n : nat) (m' : Machine),
    run sense fuel n = Done tt m' ->
    In (SpotGPSState m') defined_states
    /\ agrees (SpotGPSState m') (last_read (trace m')).
Proof.
  intros sense fuel n m' H. destruct (run_settled _ _ _ _ H) as (D & A & _).
  auto.
Qed.

Lemma state_agrees_with_feedback_witness :
  run demo_sense 5 78 = Done tt (final (run demo_sense 5 78))
  /\ agrees (SpotGPSState (final (run demo_sense 5 78)))
            (last_read (trace (final (run demo_sense 5 78)))).
Proof.
  split; [exact run_demo_78|].
  exact (proj2 (state_agrees_with_feedback demo_sense 5 78 _ run_demo_78)).
Defined.

Lemma powered_at_messages_sound (tr : list Event) :
  forall l, powered_at_messages l tr = true ->
            forall a p b, tr = a ++ EvCall p :: b -> is_message p = true ->
                          last_read_from l a = Some HIGH.
Proof.
  intros l H a p b -> Hp.
  rewrite powered_at_messages_app in H. apply andb_prop in H.
  destruct H as [_ H]. cbn [powered_at_messages] in H. rewrite Hp in H.
  apply andb_prop in H. destruct H as [H _].
  destruct (last_read_from l a) as [[]|]; try discriminate. reflexivity.
Qed.

(** X7. In a run from cold start a message button is pressed only on a
    device that has shown itself powered: whenever [Spot_Message_OK] or
    [Spot_Message_Custom] is entered, the latest sample of the feedback line
    read high. *)
Theorem messages_only_when_powered :
  forall (sense : nat -> Level) (fuel n : nat) (m' : Machine)
         (a b : list Event) (p : Proc),
    run sense fuel n = Done tt m' ->
    trace m' = a ++ EvCall p :: b ->
    is_message p = true ->
    last_read a = Some HIGH.
Proof.
  intros sense fuel n m' a b p H T Hp.
  destruct (run_settled _ _ _ _ H) as (_ & _ & P).
  exact (powered_at_messages_sound _ _ P a p b T Hp).
Qed.

Lemma messages_only_when_powered_witness :
  run demo_sense 5 2 = Done tt (final (run demo_sense 5 2))
  /\ trace (final (run demo_sense 5 2))
     = firstn 33 (trace (final (run demo_sense 5 2)))
         ++ EvCall MessageOK :: skipn 34 (trace (final (run demo_sense 5 2)))
  /\ last_read (firstn 33 (trace (final (run demo_sense 5 2)))) = Some HIGH.
Proof.
  assert (R : run demo_sense 5 2 = Done tt (final (run demo_sense 5 2)))
    by (vm_compute; reflexivity).
  assert (T : trace (final (run demo_sense 5 2))
              = firstn 33 (trace (final (run demo_sense 5 2)))
                  ++ EvCall MessageOK
                  :: skipn 34 (trace (final (run demo_sense 5 2))))
    by (vm_compute; reflexivity).
  split; [exact R|]. split; [exact T|].
  exact (messages_only_when_powered demo_sense 5 2 _ _ _ MessageOK R T eq_refl).
Defined.

(** * The cycle of the state machine *)





(** * The trace of a run, tick by tick *)

Lemma loop_block_ctl (sense : nat -> Level) (fuel : nat) (m m' : Machine) :
  loop sense fuel m = Done tt m' ->
  exists b,
    trace m' = trace m ++ b ++ sleep_events
    /\ match snd (tick_ctl (ctl_of m)) with
       | None => b = []
       | Some p => proc_done p b
       end.
Proof.
  intro H. unfold tick_ctl, ctl_of.
  destruct (loop_step _ _ _ _ H)
    as [(G & ->) | (G & p & nx & th & evs & r & D & _ & PD & ->)].
  - exists []. split; [reflexivity|].
    destruct (Z.geb_spec (wrap16 (counter8s m + 1)) (q8SecondBlocks m)); [lia|].
    reflexivity.
  - exists evs. split.
    + cbn [trace extend set_q8SecondBlocks set_SpotGPSState set_counter8s].
      now rewrite app_assoc.
    + destruct (Z.geb_spec (wrap16 (counter8s m + 1)) (q8SecondBlocks m)); [|lia].
      rewrite D. exact PD.
Qed.

Lemma loops_blocks_ctl (sense : nat -> Level) (fuel : nat) :
  forall n m m',
    loops sense fuel n m = Done tt m' ->
    exists blocks,
      length blocks = n
      /\ trace m' = trace m ++ asleep blocks
      /\ forall i, (i < n)%nat ->
           match snd (tick_ctl (Nat.iter i (fun g => fst (tick_ctl g)) (ctl_of m))) with
           | None => nth i blocks [] = []
           | Some p => proc_done p (nth i blocks [])
           end.
Proof.
  induction n as [|n IH]; intros m m' H.
  - injection H as <-. exists []. rewrite app_nil_r.
    split; [reflexivity|]. split; [reflexivity|]. intros i Hi; lia.
  - cbn [loops] in H. unfold bind in H.
    destruct (loop sense fuel m) as [[] m1|m1] eqn:L; [|discriminate].
    destruct (loop_block_ctl _ _ _ _ L) as (b & T1 & B1).
    destruct (loop_ctl _ _ _ _ L) as (G1 & _).
    destruct (IH _ _ H) as (bs & Hl & T2 & B2).
    exists (b :: bs). split; [simpl; lia|]. split.
    + rewrite T2, T1, asleep_cons, <- !app_assoc. reflexivity.
    + intros [|i] Hi.
      * exact B1.
      * rewrite Nat.iter_succ_r, <- G1. cbn [nth]. apply B2. lia.
Qed.

(** X10. The whole trace of a run from cold start is fixed by the schedule:
    it is one block per tick, each followed by the steps to sleep; the block
    of a tick at which nothing is scheduled is empty (no pin is touched, no
    sample taken, no delay), and the block of a tick at which procedure [p]
    is scheduled is one complete call of [p]. *)
Theorem run_trace_follows_schedule :
  forall (sense : nat -> Level) (fuel n : nat) (m' : Machine),
    run sense fuel n = Done tt m' ->
    exists blocks,
      length blocks = n
      /\ trace m' = asleep blocks
      /\ forall t, (1 <= t <= n)%nat ->
           match schedule t with
           | None => nth (t - 1) blocks [] = []
           | Some p => proc_done p (nth (t - 1) blocks [])
           end.
Proof.
  intros sense fuel n m' H. unfold run in H. unfold bind at 1 in H.
  rewrite setup_boot in H.
  destruct (loops_blocks_ctl _ _ _ _ _ H) as (blocks & Hl & T & B).
  exists blocks. split; [exact Hl|]. split; [exact T|].
  intros t Ht. specialize (B (t - 1)%nat ltac:(lia)).
  change (Nat.iter (t - 1) (fun g => fst (tick_ctl g))
                   (ctl_of (mkMachine 0 Power_Off 1 0 [])))
    with (ctl_after (t - 1)) in B.
  rewrite fired_schedule in B.
  replace (S (t - 1)) with t in B by lia. exact B.
Qed.

Lemma run_trace_follows_schedule_witness :
  run demo_sense 5 139 = Done tt (final (run demo_sense 5 139))
  /\ exists blocks,
      length blocks = 139%nat
      /\ trace (final (run demo_sense 5 139)) = asleep blocks
      /\ nth 2 blocks [] = []
      /\ proc_done TurnOff (nth 39 blocks []).
Proof.
  split; [exact run_demo_139|].
  destruct (run_trace_follows_schedule demo_sense 5 139 _ run_demo_139)
    as (blocks & Hl & T & B).
  exists blocks. split; [exact Hl|]. split; [exact T|]. split.
  - exact (B 3%nat ltac:(lia)).
  - exact (B 40%nat ltac:(lia)).
Defined.

(** X11. On a device whose feedback line stays low the sketch never gets
    past its first tick: whatever the number of passes asked for and however
    long it polls, the run is still inside the first [Spot_Turn_On], with
    the power button held down, and the processor has never slept. *)
Theorem dead_device_blocks_first_tick :
  forall (sense : nat -> Level) (fuel n : nat),
    (forall k, sense k = LOW) ->
    (1 <= n)%nat ->
    run sense fuel n
    = Spinning (extend (press_prefix TurnOn LOW ++ polls LOW fuel) (S fuel)
                       (mkMachine 0 Power_Off 1 0 []))
    /\ sleeps (trace (final (run sense fuel n))) = O
    /\ pressed SpotOnOffButton (trace (final (run sense fuel n))) = true.
Proof.
  intros sense fuel n Hs Hn.
  assert (R : run sense fuel n
              = Spinning (extend (press_prefix TurnOn LOW ++ polls LOW fuel)
                                 (S fuel) (mkMachine 0 Power_Off 1 0 []))).
  { unfold run. unfold bind at 1. rewrite setup_boot.
    destruct n as [|n]; [lia|]. cbn [loops]. unfold bind.
    rewrite loop_unfold, EightSeconds_unfold.
    change (wrap16 (counter8s (mkMachine 0 Power_Off 1 0 []) + 1)
            >=? q8SecondBlocks (mkMachine 0 Power_Off 1 0 [])) with true.
    cbv iota.
    rewrite (action_dispatch sense fuel (set_counter8s 0 (mkMachine 0 Power_Off 1 0 []))
               TurnOn Power_On 1 eq_refl).
    unfold bind. cbn [run_proc]. rewrite Spot_Turn_On_outcome.
    unfold power_outcome. cbn [reads set_counter8s]. rewrite Hs. cbn [Level_eqb].
    assert (F : first_change sense LOW 1 fuel = None)
      by (apply first_change_None; intros; apply Hs).
    rewrite F. reflexivity. }
  split; [exact R|]. rewrite R. cbn [final trace extend app].
  split.
  - change (sleeps (press_prefix TurnOn LOW ++ polls LOW fuel) = O).
    rewrite sleeps_app, sleeps_polls. reflexivity.
  - change (pressed SpotOnOffButton
              ([] ++ press_prefix TurnOn LOW ++ polls LOW fuel) = true).
    unfold pressed.
    destruct (pin_state_held [] TurnOn LOW fuel) as [-> ->]. reflexivity.
Qed.

Lemma dead_device_blocks_first_tick_witness :
  (forall k, dead_sense k = LOW)
  /\ (1 <= 200)%nat
  /\ sleeps (trace (final (run dead_sense 1000 200))) = O.
Proof.
  split; [reflexivity|]. split; [lia|].
  exact (proj1 (proj2 (dead_device_blocks_first_tick dead_sense 1000 200
                         (fun _ => eq_refl) ltac:(lia)))).
Defined.
